(** * Welcome-Back-BBQ filter: the two Streamlit apps, embedded and verified

    Sources: [streamlit_app.py] and [pages/testing_area_app.py].  Both load
    two spreadsheets, normalise the column labels, and keep the attendee
    rows whose key value does not occur in the majors' key column.

    The embedding has three layers:
    - Python strings, as sequences of code points, and the [str] methods
      the scripts use;
    - the part of pandas the apps call: frames, [df[label]], [isin], [~],
      [df[mask]], [dropna], [len];
    - the Streamlit script itself, as a computation that logs the calls it
      makes and may stop with an exception. *)


From Stdlib Require Import Ascii NArith Strings.Byte.
From stdpp Require Import base decidable option list countable gmap strings pretty.

(** ** Python [str]

    A Python string is a sequence of Unicode code points; a code point is
    its number.  The methods below are CPython 3.11's, with the character
    data of Unicode 14.0.0. *)

Abbreviation str := (list N).

(** String literals: the text between the quotes, read as UTF-8, stands
    for the list of its code points. *)
Inductive literal : Type :=
  | lit_nil
  | lit_cons (c : N) (s : literal).

Fixpoint utf8_decode (bs : list N) : option literal :=
  match bs with
  | [] => Some lit_nil
  | b0 :: bs1 =>
      if (b0 <? 128)%N then lit_cons b0 <$> utf8_decode bs1
      else if (b0 <? 192)%N then None
      else if (b0 <? 224)%N then
        match bs1 with
        | b1 :: bs2 =>
            lit_cons ((b0 - 192) * 64 + (b1 - 128))%N <$> utf8_decode bs2
        | _ => None
        end
      else if (b0 <? 240)%N then
        match bs1 with
        | b1 :: b2 :: bs3 =>
            lit_cons ((b0 - 224) * 4096 + (b1 - 128) * 64 + (b2 - 128))%N
              <$> utf8_decode bs3
        | _ => None
        end
      else
        match bs1 with
        | b1 :: b2 :: b3 :: bs4 =>
            lit_cons ((b0 - 240) * 262144 + (b1 - 128) * 4096
                      + (b2 - 128) * 64 + (b3 - 128))%N
              <$> utf8_decode bs4
        | _ => None
        end
  end.

Definition utf8_encode (c : N) : option (list N) :=
  if (c <? 128)%N then Some [c]
  else if (c <? 2048)%N then Some [192 + c / 64; 128 + c mod 64]%N
  else if (c <? 65536)%N then
    Some [224 + c / 4096; 128 + (c / 64) mod 64; 128 + c mod 64]%N
  else if (c <? 1114112)%N then
    Some [240 + c / 262144; 128 + (c / 4096) mod 64;
          128 + (c / 64) mod 64; 128 + c mod 64]%N
  else None.

Definition read_literal (bs : list Byte.byte) : option literal :=
  utf8_decode (Byte.to_N <$> bs).

Fixpoint utf8_bytes (s : literal) : option (list Byte.byte) :=
  match s with
  | lit_nil => Some []
  | lit_cons c s' =>
      ns ← utf8_encode c;
      bs ← mapM Byte.of_N ns;
      rest ← utf8_bytes s';
      Some (bs ++ rest)
  end.

Definition show_literal (s : literal) : option (list Byte.byte) :=
  match s with
  | lit_nil => None
  | _ => utf8_bytes s
  end.

Declare Scope str_scope.
Delimit Scope str_scope with str.
#[warnings="-via-type-remapping,-via-type-mismatch"]
String Notation list read_literal show_literal
  (via literal mapping [[nil] => lit_nil, [cons] => lit_cons]) : str_scope.
Open Scope str_scope.

Module str.

Local Open Scope N_scope.

(** [a <= c <= b] *)
Definition between (a b c : N) : bool := (a <=? c) && (c <=? b).

(** [c.isspace()]: the code points [Py_UNICODE_ISSPACE] accepts. *)
Definition isspace (c : N) : bool :=
  between 9 13 c || between 28 32 c || (c =? 133) || (c =? 160)
  || (c =? 5760) || between 8192 8202 c || between 8232 8233 c
  || (c =? 8239) || (c =? 8287) || (c =? 12288).

(** Membership in a table of ranges [(lo, hi)], and of ranges
    [(lo, hi, step)] that hold [lo], [lo + step], ... up to [hi]. *)
Definition in_stride (c lo hi step : N) : bool :=
  between lo hi c && ((c - lo) mod step =? 0).

Definition in_ranges (c : N) (table : list (N * N)) : bool :=
  existsb (λ '(lo, hi), between lo hi c) table.

Definition in_strides (c : N) (table : list (N * N * N)) : bool :=
  existsb (λ '(lo, hi, step), in_stride c lo hi step) table.

(** The simple lower-case mappings: [(lo, hi, step, to)] sends [lo] to
    [to], [lo + step] to [to + step], and so on up to [hi]. *)
Definition lower_ranges : list (N * N * N * N) :=
  [(65, 90, 1, 97); (192, 214, 1, 224); (216, 222, 1, 248); (256, 302, 2, 257);
   (306, 310, 2, 307); (313, 327, 2, 314); (330, 374, 2, 331); (376, 376, 1, 255);
   (377, 381, 2, 378); (385, 385, 1, 595); (386, 388, 2, 387); (390, 390, 1, 596);
   (391, 391, 1, 392); (393, 394, 1, 598); (395, 395, 1, 396); (398, 398, 1, 477);
   (399, 399, 1, 601); (400, 400, 1, 603); (401, 401, 1, 402); (403, 403, 1, 608);
   (404, 404, 1, 611); (406, 406, 1, 617); (407, 407, 1, 616); (408, 408, 1, 409);
   (412, 412, 1, 623); (413, 413, 1, 626); (415, 415, 1, 629); (416, 420, 2, 417);
   (422, 422, 1, 640); (423, 423, 1, 424); (425, 425, 1, 643); (428, 428, 1, 429);
   (430, 430, 1, 648); (431, 431, 1, 432); (433, 434, 1, 650); (435, 437, 2, 436);
   (439, 439, 1, 658); (440, 440, 1, 441); (444, 444, 1, 445); (452, 452, 1, 454);
   (453, 453, 1, 454); (455, 455, 1, 457); (456, 456, 1, 457); (458, 458, 1, 460);
   (459, 475, 2, 460); (478, 494, 2, 479); (497, 497, 1, 499); (498, 500, 2, 499);
   (502, 502, 1, 405); (503, 503, 1, 447); (504, 542, 2, 505); (544, 544, 1, 414);
   (546, 562, 2, 547); (570, 570, 1, 11365); (571, 571, 1, 572); (573, 573, 1, 410);
   (574, 574, 1, 11366); (577, 577, 1, 578); (579, 579, 1, 384); (580, 580, 1, 649);
   (581, 581, 1, 652); (582, 590, 2, 583); (880, 882, 2, 881); (886, 886, 1, 887);
   (895, 895, 1, 1011); (902, 902, 1, 940); (904, 906, 1, 941); (908, 908, 1, 972);
   (910, 911, 1, 973); (913, 929, 1, 945); (931, 939, 1, 963); (975, 975, 1, 983);
   (984, 1006, 2, 985); (1012, 1012, 1, 952); (1015, 1015, 1, 1016);
   (1017, 1017, 1, 1010); (1018, 1018, 1, 1019); (1021, 1023, 1, 891);
   (1024, 1039, 1, 1104); (1040, 1071, 1, 1072); (1120, 1152, 2, 1121);
   (1162, 1214, 2, 1163); (1216, 1216, 1, 1231); (1217, 1229, 2, 1218);
   (1232, 1326, 2, 1233); (1329, 1366, 1, 1377); (4256, 4293, 1, 11520);
   (4295, 4295, 1, 11559); (4301, 4301, 1, 11565); (5024, 5103, 1, 43888);
   (5104, 5109, 1, 5112); (7312, 7354, 1, 4304); (7357, 7359, 1, 4349);
   (7680, 7828, 2, 7681); (7838, 7838, 1, 223); (7840, 7934, 2, 7841);
   (7944, 7951, 1, 7936); (7960, 7965, 1, 7952); (7976, 7983, 1, 7968);
   (7992, 7999, 1, 7984); (8008, 8013, 1, 8000); (8025, 8031, 2, 8017);
   (8040, 8047, 1, 8032); (8072, 8079, 1, 8064); (8088, 8095, 1, 8080);
   (8104, 8111, 1, 8096); (8120, 8121, 1, 8112); (8122, 8123, 1, 8048);
   (8124, 8124, 1, 8115); (8136, 8139, 1, 8050); (8140, 8140, 1, 8131);
   (8152, 8153, 1, 8144); (8154, 8155, 1, 8054); (8168, 8169, 1, 8160);
   (8170, 8171, 1, 8058); (8172, 8172, 1, 8165); (8184, 8185, 1, 8056);
   (8186, 8187, 1, 8060); (8188, 8188, 1, 8179); (8486, 8486, 1, 969);
   (8490, 8490, 1, 107); (8491, 8491, 1, 229); (8498, 8498, 1, 8526);
   (8544, 8559, 1, 8560); (8579, 8579, 1, 8580); (9398, 9423, 1, 9424);
   (11264, 11311, 1, 11312); (11360, 11360, 1, 11361); (11362, 11362, 1, 619);
   (11363, 11363, 1, 7549); (11364, 11364, 1, 637); (11367, 11371, 2, 11368);
   (11373, 11373, 1, 593); (11374, 11374, 1, 625); (11375, 11375, 1, 592);
   (11376, 11376, 1, 594); (11378, 11378, 1, 11379); (11381, 11381, 1, 11382);
   (11390, 11391, 1, 575); (11392, 11490, 2, 11393); (11499, 11501, 2, 11500);
   (11506, 11506, 1, 11507); (42560, 42604, 2, 42561); (42624, 42650, 2, 42625);
   (42786, 42798, 2, 42787); (42802, 42862, 2, 42803); (42873, 42875, 2, 42874);
   (42877, 42877, 1, 7545); (42878, 42886, 2, 42879); (42891, 42891, 1, 42892);
   (42893, 42893, 1, 613); (42896, 42898, 2, 42897); (42902, 42920, 2, 42903);
   (42922, 42922, 1, 614); (42923, 42923, 1, 604); (42924, 42924, 1, 609);
   (42925, 42925, 1, 620); (42926, 42926, 1, 618); (42928, 42928, 1, 670);
   (42929, 42929, 1, 647); (42930, 42930, 1, 669); (42931, 42931, 1, 43859);
   (42932, 42946, 2, 42933); (42948, 42948, 1, 42900); (42949, 42949, 1, 642);
   (42950, 42950, 1, 7566); (42951, 42953, 2, 42952); (42960, 42960, 1, 42961);
   (42966, 42968, 2, 42967); (42997, 42997, 1, 42998); (65313, 65338, 1, 65345);
   (66560, 66599, 1, 66600); (66736, 66771, 1, 66776); (66928, 66938, 1, 66967);
   (66940, 66954, 1, 66979); (66956, 66962, 1, 66995); (66964, 66965, 1, 67003);
   (68736, 68786, 1, 68800); (71840, 71871, 1, 71872); (93760, 93791, 1, 93792);
   (125184, 125217, 1, 125218)].

(** The code points with the property [Cased]. *)
Definition cased_ranges : list (N * N) :=
  [(65, 90); (97, 122); (170, 170); (181, 181); (186, 186); (192, 214); (216, 246);
   (248, 442); (444, 447); (452, 659); (661, 696); (704, 705); (736, 740); (837, 837);
   (880, 883); (886, 887); (890, 893); (895, 895); (902, 902); (904, 906); (908, 908);
   (910, 929); (931, 1013); (1015, 1153); (1162, 1327); (1329, 1366); (1376, 1416);
   (4256, 4293); (4295, 4295); (4301, 4301); (4304, 4346); (4349, 4351); (5024, 5109);
   (5112, 5117); (7296, 7304); (7312, 7354); (7357, 7359); (7424, 7615); (7680, 7957);
   (7960, 7965); (7968, 8005); (8008, 8013); (8016, 8023); (8025, 8025); (8027, 8027);
   (8029, 8029); (8031, 8061); (8064, 8116); (8118, 8124); (8126, 8126); (8130, 8132);
   (8134, 8140); (8144, 8147); (8150, 8155); (8160, 8172); (8178, 8180); (8182, 8188);
   (8305, 8305); (8319, 8319); (8336, 8348); (8450, 8450); (8455, 8455); (8458, 8467);
   (8469, 8469); (8473, 8477); (8484, 8484); (8486, 8486); (8488, 8488); (8490, 8493);
   (8495, 8500); (8505, 8505); (8508, 8511); (8517, 8521); (8526, 8526); (8544, 8575);
   (8579, 8580); (9398, 9449); (11264, 11492); (11499, 11502); (11506, 11507);
   (11520, 11557); (11559, 11559); (11565, 11565); (42560, 42605); (42624, 42653);
   (42786, 42887); (42891, 42894); (42896, 42954); (42960, 42961); (42963, 42963);
   (42965, 42969); (42997, 42998); (43000, 43002); (43824, 43866); (43868, 43880);
   (43888, 43967); (64256, 64262); (64275, 64279); (65313, 65338); (65345, 65370);
   (66560, 66639); (66736, 66771); (66776, 66811); (66928, 66938); (66940, 66954);
   (66956, 66962); (66964, 66965); (66967, 66977); (66979, 66993); (66995, 67001);
   (67003, 67004); (67456, 67456); (67459, 67461); (67463, 67504); (67506, 67514);
   (68736, 68786); (68800, 68850); (71840, 71903); (93760, 93823); (119808, 119892);
   (119894, 119964); (119966, 119967); (119970, 119970); (119973, 119974);
   (119977, 119980); (119982, 119993); (119995, 119995); (119997, 120003);
   (120005, 120069); (120071, 120074); (120077, 120084); (120086, 120092);
   (120094, 120121); (120123, 120126); (120128, 120132); (120134, 120134);
   (120138, 120144); (120146, 120485); (120488, 120512); (120514, 120538);
   (120540, 120570); (120572, 120596); (120598, 120628); (120630, 120654);
   (120656, 120686); (120688, 120712); (120714, 120744); (120746, 120770);
   (120772, 120779); (122624, 122633); (122635, 122654); (125184, 125251);
   (127280, 127305); (127312, 127337); (127344, 127369)].

(** The code points with the property [Case_Ignorable]. *)
Definition case_ignorable_ranges : list (N * N) :=
  [(39, 39); (46, 46); (58, 58); (94, 94); (96, 96); (168, 168); (173, 173);
   (175, 175); (180, 180); (183, 184); (688, 879); (884, 885); (890, 890); (900, 901);
   (903, 903); (1155, 1161); (1369, 1369); (1375, 1375); (1425, 1469); (1471, 1471);
   (1473, 1474); (1476, 1477); (1479, 1479); (1524, 1524); (1536, 1541); (1552, 1562);
   (1564, 1564); (1600, 1600); (1611, 1631); (1648, 1648); (1750, 1757); (1759, 1768);
   (1770, 1773); (1807, 1807); (1809, 1809); (1840, 1866); (1958, 1968); (2027, 2037);
   (2042, 2042); (2045, 2045); (2070, 2093); (2137, 2139); (2184, 2184); (2192, 2193);
   (2200, 2207); (2249, 2306); (2362, 2362); (2364, 2364); (2369, 2376); (2381, 2381);
   (2385, 2391); (2402, 2403); (2417, 2417); (2433, 2433); (2492, 2492); (2497, 2500);
   (2509, 2509); (2530, 2531); (2558, 2558); (2561, 2562); (2620, 2620); (2625, 2626);
   (2631, 2632); (2635, 2637); (2641, 2641); (2672, 2673); (2677, 2677); (2689, 2690);
   (2748, 2748); (2753, 2757); (2759, 2760); (2765, 2765); (2786, 2787); (2810, 2815);
   (2817, 2817); (2876, 2876); (2879, 2879); (2881, 2884); (2893, 2893); (2901, 2902);
   (2914, 2915); (2946, 2946); (3008, 3008); (3021, 3021); (3072, 3072); (3076, 3076);
   (3132, 3132); (3134, 3136); (3142, 3144); (3146, 3149); (3157, 3158); (3170, 3171);
   (3201, 3201); (3260, 3260); (3263, 3263); (3270, 3270); (3276, 3277); (3298, 3299);
   (3328, 3329); (3387, 3388); (3393, 3396); (3405, 3405); (3426, 3427); (3457, 3457);
   (3530, 3530); (3538, 3540); (3542, 3542); (3633, 3633); (3636, 3642); (3654, 3662);
   (3761, 3761); (3764, 3772); (3782, 3782); (3784, 3789); (3864, 3865); (3893, 3893);
   (3895, 3895); (3897, 3897); (3953, 3966); (3968, 3972); (3974, 3975); (3981, 3991);
   (3993, 4028); (4038, 4038); (4141, 4144); (4146, 4151); (4153, 4154); (4157, 4158);
   (4184, 4185); (4190, 4192); (4209, 4212); (4226, 4226); (4229, 4230); (4237, 4237);
   (4253, 4253); (4348, 4348); (4957, 4959); (5906, 5908); (5938, 5939); (5970, 5971);
   (6002, 6003); (6068, 6069); (6071, 6077); (6086, 6086); (6089, 6099); (6103, 6103);
   (6109, 6109); (6155, 6159); (6211, 6211); (6277, 6278); (6313, 6313); (6432, 6434);
   (6439, 6440); (6450, 6450); (6457, 6459); (6679, 6680); (6683, 6683); (6742, 6742);
   (6744, 6750); (6752, 6752); (6754, 6754); (6757, 6764); (6771, 6780); (6783, 6783);
   (6823, 6823); (6832, 6862); (6912, 6915); (6964, 6964); (6966, 6970); (6972, 6972);
   (6978, 6978); (7019, 7027); (7040, 7041); (7074, 7077); (7080, 7081); (7083, 7085);
   (7142, 7142); (7144, 7145); (7149, 7149); (7151, 7153); (7212, 7219); (7222, 7223);
   (7288, 7293); (7376, 7378); (7380, 7392); (7394, 7400); (7405, 7405); (7412, 7412);
   (7416, 7417); (7468, 7530); (7544, 7544); (7579, 7679); (8125, 8125); (8127, 8129);
   (8141, 8143); (8157, 8159); (8173, 8175); (8189, 8190); (8203, 8207); (8216, 8217);
   (8228, 8228); (8231, 8231); (8234, 8238); (8288, 8292); (8294, 8303); (8305, 8305);
   (8319, 8319); (8336, 8348); (8400, 8432); (11388, 11389); (11503, 11505);
   (11631, 11631); (11647, 11647); (11744, 11775); (11823, 11823); (12293, 12293);
   (12330, 12333); (12337, 12341); (12347, 12347); (12441, 12446); (12540, 12542);
   (40981, 40981); (42232, 42237); (42508, 42508); (42607, 42610); (42612, 42621);
   (42623, 42623); (42652, 42655); (42736, 42737); (42752, 42785); (42864, 42864);
   (42888, 42890); (42994, 42996); (43000, 43001); (43010, 43010); (43014, 43014);
   (43019, 43019); (43045, 43046); (43052, 43052); (43204, 43205); (43232, 43249);
   (43263, 43263); (43302, 43309); (43335, 43345); (43392, 43394); (43443, 43443);
   (43446, 43449); (43452, 43453); (43471, 43471); (43493, 43494); (43561, 43566);
   (43569, 43570); (43573, 43574); (43587, 43587); (43596, 43596); (43632, 43632);
   (43644, 43644); (43696, 43696); (43698, 43700); (43703, 43704); (43710, 43711);
   (43713, 43713); (43741, 43741); (43756, 43757); (43763, 43764); (43766, 43766);
   (43867, 43871); (43881, 43883); (44005, 44005); (44008, 44008); (44013, 44013);
   (64286, 64286); (64434, 64450); (65024, 65039); (65043, 65043); (65056, 65071);
   (65106, 65106); (65109, 65109); (65279, 65279); (65287, 65287); (65294, 65294);
   (65306, 65306); (65342, 65342); (65344, 65344); (65392, 65392); (65438, 65439);
   (65507, 65507); (65529, 65531); (66045, 66045); (66272, 66272); (66422, 66426);
   (67456, 67461); (67463, 67504); (67506, 67514); (68097, 68099); (68101, 68102);
   (68108, 68111); (68152, 68154); (68159, 68159); (68325, 68326); (68900, 68903);
   (69291, 69292); (69446, 69456); (69506, 69509); (69633, 69633); (69688, 69702);
   (69744, 69744); (69747, 69748); (69759, 69761); (69811, 69814); (69817, 69818);
   (69821, 69821); (69826, 69826); (69837, 69837); (69888, 69890); (69927, 69931);
   (69933, 69940); (70003, 70003); (70016, 70017); (70070, 70078); (70089, 70092);
   (70095, 70095); (70191, 70193); (70196, 70196); (70198, 70199); (70206, 70206);
   (70367, 70367); (70371, 70378); (70400, 70401); (70459, 70460); (70464, 70464);
   (70502, 70508); (70512, 70516); (70712, 70719); (70722, 70724); (70726, 70726);
   (70750, 70750); (70835, 70840); (70842, 70842); (70847, 70848); (70850, 70851);
   (71090, 71093); (71100, 71101); (71103, 71104); (71132, 71133); (71219, 71226);
   (71229, 71229); (71231, 71232); (71339, 71339); (71341, 71341); (71344, 71349);
   (71351, 71351); (71453, 71455); (71458, 71461); (71463, 71467); (71727, 71735);
   (71737, 71738); (71995, 71996); (71998, 71998); (72003, 72003); (72148, 72151);
   (72154, 72155); (72160, 72160); (72193, 72202); (72243, 72248); (72251, 72254);
   (72263, 72263); (72273, 72278); (72281, 72283); (72330, 72342); (72344, 72345);
   (72752, 72758); (72760, 72765); (72767, 72767); (72850, 72871); (72874, 72880);
   (72882, 72883); (72885, 72886); (73009, 73014); (73018, 73018); (73020, 73021);
   (73023, 73029); (73031, 73031); (73104, 73105); (73109, 73109); (73111, 73111);
   (73459, 73460); (78896, 78904); (92912, 92916); (92976, 92982); (92992, 92995);
   (94031, 94031); (94095, 94111); (94176, 94177); (94179, 94180); (110576, 110579);
   (110581, 110587); (110589, 110590); (113821, 113822); (113824, 113827);
   (118528, 118573); (118576, 118598); (119143, 119145); (119155, 119170);
   (119173, 119179); (119210, 119213); (119362, 119364); (121344, 121398);
   (121403, 121452); (121461, 121461); (121476, 121476); (121499, 121503);
   (121505, 121519); (122880, 122886); (122888, 122904); (122907, 122913);
   (122915, 122916); (122918, 122922); (123184, 123197); (123566, 123566);
   (123628, 123631); (125136, 125142); (125252, 125259); (127995, 127999);
   (917505, 917505); (917536, 917631); (917760, 917999)].

(** The code points with the property [Uppercase]. *)
Definition upper_ranges : list (N * N * N) :=
  [(65, 90, 1); (192, 214, 1); (216, 222, 1); (256, 310, 2); (313, 327, 2);
   (330, 376, 2); (377, 381, 2); (385, 386, 1); (388, 390, 2); (391, 393, 2);
   (394, 395, 1); (398, 401, 1); (403, 404, 1); (406, 408, 1); (412, 413, 1);
   (415, 416, 1); (418, 422, 2); (423, 425, 2); (428, 430, 2); (431, 433, 2);
   (434, 435, 1); (437, 439, 2); (440, 440, 1); (444, 444, 1); (452, 452, 1);
   (455, 455, 1); (458, 458, 1); (461, 475, 2); (478, 494, 2); (497, 497, 1);
   (500, 502, 2); (503, 504, 1); (506, 562, 2); (570, 571, 1); (573, 574, 1);
   (577, 579, 2); (580, 582, 1); (584, 590, 2); (880, 882, 2); (886, 886, 1);
   (895, 895, 1); (902, 904, 2); (905, 906, 1); (908, 910, 2); (911, 913, 2);
   (914, 929, 1); (931, 939, 1); (975, 975, 1); (978, 980, 1); (984, 1006, 2);
   (1012, 1012, 1); (1015, 1017, 2); (1018, 1018, 1); (1021, 1071, 1); (1120, 1152, 2);
   (1162, 1216, 2); (1217, 1229, 2); (1232, 1326, 2); (1329, 1366, 1); (4256, 4293, 1);
   (4295, 4295, 1); (4301, 4301, 1); (5024, 5109, 1); (7312, 7354, 1); (7357, 7359, 1);
   (7680, 7828, 2); (7838, 7934, 2); (7944, 7951, 1); (7960, 7965, 1); (7976, 7983, 1);
   (7992, 7999, 1); (8008, 8013, 1); (8025, 8031, 2); (8040, 8047, 1); (8120, 8123, 1);
   (8136, 8139, 1); (8152, 8155, 1); (8168, 8172, 1); (8184, 8187, 1); (8450, 8450, 1);
   (8455, 8455, 1); (8459, 8461, 1); (8464, 8466, 1); (8469, 8469, 1); (8473, 8477, 1);
   (8484, 8490, 2); (8491, 8493, 1); (8496, 8499, 1); (8510, 8511, 1); (8517, 8517, 1);
   (8544, 8559, 1); (8579, 8579, 1); (9398, 9423, 1); (11264, 11311, 1);
   (11360, 11362, 2); (11363, 11364, 1); (11367, 11373, 2); (11374, 11376, 1);
   (11378, 11378, 1); (11381, 11381, 1); (11390, 11392, 1); (11394, 11490, 2);
   (11499, 11501, 2); (11506, 11506, 1); (42560, 42604, 2); (42624, 42650, 2);
   (42786, 42798, 2); (42802, 42862, 2); (42873, 42877, 2); (42878, 42886, 2);
   (42891, 42893, 2); (42896, 42898, 2); (42902, 42922, 2); (42923, 42926, 1);
   (42928, 42932, 1); (42934, 42948, 2); (42949, 42951, 1); (42953, 42953, 1);
   (42960, 42960, 1); (42966, 42968, 2); (42997, 42997, 1); (65313, 65338, 1);
   (66560, 66599, 1); (66736, 66771, 1); (66928, 66938, 1); (66940, 66954, 1);
   (66956, 66962, 1); (66964, 66965, 1); (68736, 68786, 1); (71840, 71871, 1);
   (93760, 93791, 1); (119808, 119833, 1); (119860, 119885, 1); (119912, 119937, 1);
   (119964, 119966, 2); (119967, 119967, 1); (119970, 119970, 1); (119973, 119974, 1);
   (119977, 119980, 1); (119982, 119989, 1); (120016, 120041, 1); (120068, 120069, 1);
   (120071, 120074, 1); (120077, 120084, 1); (120086, 120092, 1); (120120, 120121, 1);
   (120123, 120126, 1); (120128, 120132, 1); (120134, 120134, 1); (120138, 120144, 1);
   (120172, 120197, 1); (120224, 120249, 1); (120276, 120301, 1); (120328, 120353, 1);
   (120380, 120405, 1); (120432, 120457, 1); (120488, 120512, 1); (120546, 120570, 1);
   (120604, 120628, 1); (120662, 120686, 1); (120720, 120744, 1); (120778, 120778, 1);
   (125184, 125217, 1); (127280, 127305, 1); (127312, 127337, 1); (127344, 127369, 1)].

(** [_PyUnicode_ToLowerFull]: U+0130 has the one mapping that is longer
    than a code point; a code point without a mapping is its own. *)
Definition tolower_full (c : N) : list N :=
  if c =? 304 then [105; 775]
  else
    match List.find (λ '(lo, hi, step, _), in_stride c lo hi step) lower_ranges with
    | Some (lo, _, _, to) => [to + (c - lo)]
    | None => [c]
    end.

Definition is_cased (c : N) : bool := in_ranges c cased_ranges.
Definition is_case_ignorable (c : N) : bool := in_ranges c case_ignorable_ranges.

(** [c.isupper()] for a single character. *)
Definition isupper (c : N) : bool := in_strides c upper_ranges.

(** The first character that is not case-ignorable. *)
Fixpoint skip_ignorable (s : list N) : option N :=
  match s with
  | [] => None
  | c :: s' => if is_case_ignorable c then skip_ignorable s' else Some c
  end.

(** [handle_capital_sigma]: a capital sigma becomes a final sigma when a
    cased letter stands before it and none after it, case-ignorable
    characters skipped.  [before] holds the characters to its left, the
    nearest first; [after] those to its right. *)
Definition handle_capital_sigma (before after : list N) : N :=
  let final_sigma :=
    match skip_ignorable before with
    | Some c => is_cased c
    | None => false
    end
    && match skip_ignorable after with
       | Some c => negb (is_cased c)
       | None => true
       end in
  if final_sigma then 962 else 963.

(** [lower_ucs4] *)
Definition lower_ucs4 (before : list N) (c : N) (after : list N) : list N :=
  if c =? 931 then [handle_capital_sigma before after] else tolower_full c.

(** [do_lower]: the mappings of the characters, one after the other. *)
Fixpoint do_lower (before s : list N) : list N :=
  match s with
  | [] => []
  | c :: after => lower_ucs4 before c after ++ do_lower (c :: before) after
  end.

(** [s.lower()] *)
Definition lower (s : str) : str := do_lower [] s.

Fixpoint lstrip (s : str) : str :=
  match s with
  | [] => []
  | c :: s' => if isspace c then lstrip s' else s
  end.

Fixpoint rstrip (s : str) : str :=
  match s with
  | [] => []
  | c :: s' =>
      match rstrip s' with
      | [] => if isspace c then [] else [c]
      | t => c :: t
      end
  end.

(** [s.strip()]: skip white space from the left, then from the right of
    what is left. *)
Definition strip (s : str) : str := rstrip (lstrip s).

(** [needle in hay] *)
Fixpoint contains (needle hay : str) : bool :=
  bool_decide (needle `prefix_of` hay) ||
  match hay with
  | [] => false
  | _ :: hay' => contains needle hay'
  end.

(** Truth value of a string in a condition. *)
Definition truthy (s : str) : bool :=
  match s with [] => false | _ => true end.

(** The text of an ASCII string, as [format] and [str] produce for
    numbers. *)
Definition of_string (s : string) : str :=
  N_of_ascii <$> String.list_ascii_of_string s.

(** [str(x)] and [f"{x}"] for a number *)
Definition format `{Pretty A} (x : A) : str := of_string (pretty x).

(** Vocabulary for statements about names. *)
Definition has_upper (s : str) : bool := existsb isupper s.

Definition leading_space (s : str) : bool :=
  match s with [] => false | c :: _ => isspace c end.

Fixpoint trailing_space (s : str) : bool :=
  match s with
  | [] => false
  | [c] => isspace c
  | _ :: s' => trailing_space s'
  end.

(** A character that [lower] replaces by something else. *)
Definition lower_changes (c : N) : bool :=
  (c =? 931) || negb (bool_decide (tolower_full c = [c])).

End str.


(** The code points a range table holds, listed. *)
Definition span (lo hi step : N) : list N :=
  (λ i, lo + step * N.of_nat i)%N <$> seq 0 (S (N.to_nat ((hi - lo) / step))).

(** The lower-case mappings, listed: each code point that has one, with
    what it becomes. *)
Definition lower_pairs : list (N * list N) :=
  (304, [105; 775])%N
  :: (str.lower_ranges ≫= λ '(lo, hi, step, to),
        (λ c, (c, [to + (c - lo)]))%N <$> span lo hi step).

(** ** pandas *)

(** A cell after [pd.read_excel]: empty ([NaN]), a whole number, or text.
    The whole numbers are those a float holds exactly (up to 2^53 either
    way); numbers with a fractional part and larger ones are not
    modelled. *)
Inductive scalar : Type :=
  | NaN
  | Int (z : Z)
  | Str (s : str).

Global Instance scalar_eq_dec : EqDecision scalar.
Proof. solve_decision. Defined.

Global Instance scalar_countable : Countable scalar :=
  inj_countable'
    (λ v, match v with
          | NaN => inl ()
          | Int z => inr (inl z)
          | Str s => inr (inr s)
          end)
    (λ x, match x with
          | inl _ => NaN
          | inr (inl z) => Int z
          | inr (inr s) => Str s
          end)
    (λ v, match v with NaN | Int _ | Str _ => eq_refl end).

Definition Series : Type := list scalar.
Definition row : Type := list scalar.

(** A frame: the column labels, and the rows in sheet order.  A row shorter
    than the label list has empty cells at its end, as in a sheet. *)
Record DataFrame : Type := mkDataFrame {
  columns : list str;
  rows : list row
}.

Global Instance DataFrame_eq_dec : EqDecision DataFrame.
Proof. solve_decision. Defined.

Inductive exn_class : Type :=
  | ImportError | FileNotFoundError | KeyError | IndexingError | OtherError.

(** An exception: its class and [str(e)]. *)
Record exn : Type := Exn { class_of : exn_class; str_of : str }.

(** What evaluating an expression gives.  [OutOfModel] marks the one place
    where pandas leaves the operations modelled here: a label carried by
    several columns selects a sub-frame, not a Series. *)
Inductive res (A : Type) : Type :=
  | Ok (a : A)
  | Raise (e : exn)
  | OutOfModel.
Arguments Ok {A} a.
Arguments Raise {A} e.
Arguments OutOfModel {A}.

Module pd.

Definition len (df : DataFrame) : nat := length (rows df).

Definition cell (i : nat) (r : row) : scalar := nth i r NaN.

(** Positions of the columns labelled [c]. *)
Fixpoint positions (c : str) (i : nat) (cols : list str) : list nat :=
  match cols with
  | [] => []
  | c' :: cols' =>
      if decide (c' = c) then i :: positions c (S i) cols'
      else positions c (S i) cols'
  end.

(** [c in df.columns] *)
Definition contains (c : str) (df : DataFrame) : bool :=
  bool_decide (c ∈ columns df).

(** [df[c]] for a label [c]: the Series of the column that carries it;
    [KeyError] when none does. *)
Definition getitem (df : DataFrame) (c : str) : res Series :=
  match positions c 0 (columns df) with
  | [] => Raise (Exn KeyError c)
  | [i] => Ok (cell i <$> rows df)
  | _ => OutOfModel
  end.

(** [s.isin(values)]: membership in the hash set built from [values];
    the empty cell is a member when [values] has an empty cell. *)
Definition isin (s values : Series) : list bool :=
  let members : gset scalar := list_to_set values in
  (λ v, bool_decide (v ∈ members)) <$> s.

(** [~mask] *)
Definition invert (mask : list bool) : list bool := negb <$> mask.

Fixpoint select (rs : list row) (mask : list bool) : list row :=
  match rs, mask with
  | r :: rs', b :: mask' =>
      if b then r :: select rs' mask' else select rs' mask'
  | _, _ => []
  end.

(** [df[mask]] for a boolean Series [mask]: the rows at the true
    positions, under the same labels. *)
Definition getitem_mask (df : DataFrame) (mask : list bool) : res DataFrame :=
  if decide (length mask = length (rows df))
  then Ok (mkDataFrame (columns df) (select (rows df) mask))
  else Raise (Exn IndexingError "Item wrong length").

(** The dtype [pd.read_excel] gives a column of such cells: whole numbers
    only are [int64]; whole numbers and empty cells are [float64], the
    empty cell being the float NaN; a column with text, or with no cell,
    keeps the Python objects. *)
Inductive dtype : Type := int64 | float64 | object.

Definition dtype_of (s : Series) : dtype :=
  match s with
  | [] => object
  | _ =>
      if forallb (λ x, match x with Int _ => true | _ => false end) s then int64
      else if forallb (λ x, match x with Str _ => false | _ => true end) s
           then float64
           else object
  end.

(** The dtype of the column labelled [c]; [df[mask]] keeps the dtypes of
    [df]. *)
Definition dtype_at (df : DataFrame) (c : str) : dtype :=
  match getitem df c with
  | Ok s => dtype_of s
  | _ => object
  end.

(** [s.dropna()] *)
Definition dropna (s : Series) : Series := filter (λ v, v ≠ NaN) s.

(** [df.columns.str.strip().str.lower()], assigned back to [df.columns]. *)
Definition clean_columns (df : DataFrame) : DataFrame :=
  mkDataFrame (str.lower <$> (str.strip <$> columns df)) (rows df).

End pd.

(** ** Streamlit

    A run of a script is the list of Streamlit calls it makes, in order,
    and how it ends.  Calls that only draw fixed headings, style sheets and
    help text are left out; the pictograph that opens most messages is
    dropped from the text. *)

(** The workbook [create_download_link] writes: one named sheet. *)
Record xlsx : Type := Xlsx { sheet_name : str; sheet : DataFrame }.

Inductive st_call : Type :=
  | st_error (body : str)
  | st_warning (body : str)
  | st_success (body : str)
  | st_info (body : str)
  | st_write (body : str)
  | st_write_list (label : str) (items : list str)
  | st_write_values (label : str) (items : list scalar)
  | st_markdown (body : str)
  | st_dataframe (df : DataFrame)
  | st_download_button (file_name : str) (data : xlsx).

Record St (A : Type) : Type := mkSt { out : res A; log : list st_call }.
Arguments mkSt {A} out log.
Arguments out {A} s.
Arguments log {A} s.

Global Instance St_ret : MRet St := λ A a, mkSt (Ok a) [].

Global Instance St_bind : MBind St := λ A B k m,
  match out m with
  | Ok a => mkSt (out (k a)) (log m ++ log (k a))
  | Raise e => mkSt (Raise e) (log m)
  | OutOfModel => mkSt OutOfModel (log m)
  end.

(** A Streamlit call. *)
Definition call (c : st_call) : St unit := mkSt (Ok tt) [c].

(** A pandas expression inside the script. *)
Definition eval {A} (r : res A) : St A := mkSt r [].

(** [try: body except Exception as e: handler e] *)
Definition try_except {A} (body : St A) (handler : exn → St A) : St A :=
  match out body with
  | Raise e => mkSt (out (handler e)) (log body ++ log (handler e))
  | _ => body
  end.

(** An uploaded file, as [pd.read_excel] sees it: for each sheet name, the
    frame read or the exception raised. *)
Definition UploadedFile : Type := str → exn + DataFrame.

Definition read_excel (uploaded_file : UploadedFile) (sheet_name : str)
  : res DataFrame :=
  match uploaded_file sheet_name with
  | inl e => Raise e
  | inr df => Ok df
  end.

(** [df.head(n)] *)
Definition head_rows (n : nat) (df : DataFrame) : DataFrame :=
  mkDataFrame (columns df) (take n (rows df)).

(** [str(x)] for a cell [x] of [s.tolist()], [s] a column of dtype [d]:
    the cells of a [float64] column are floats, so a whole number prints
    with [.0] there. *)
Definition scalar_str (d : pd.dtype) (v : scalar) : str :=
  match v with
  | NaN => "nan"
  | Int z =>
      match d with
      | pd.float64 => str.format z ++ ".0"
      | _ => str.format z
      end
  | Str s => s
  end.

(** [sep.join(items)] *)
Fixpoint join (sep : str) (items : list str) : str :=
  match items with
  | [] => []
  | [x] => x
  | x :: rest => x ++ sep ++ join sep rest
  end.

(** ** [streamlit_app.py] *)

Module streamlit_app.

(** What the user did: the sidebar text inputs, the uploaders, and
    whether the filter button was pressed. *)
Record widgets : Type := Widgets {
  comparison_column : str;
  hrt_sheet : str;
  bbq_sheet : str;
  hrt_file : option UploadedFile;
  bbq_file : option UploadedFile;
  filter_button : bool
}.

(** The variables of [main] once the script has run; [None] for one that
    was never bound (or bound to [None]). *)
Record locals : Type := Locals {
  hrt_df : option DataFrame;
  bbq_df : option DataFrame;
  non_hrt_attendees : option DataFrame
}.

Definition load_excel_file (uploaded_file : UploadedFile) (sheet_name : str)
  : St (option DataFrame) :=
  try_except
    (df ← eval (read_excel uploaded_file sheet_name);
     mret (Some (pd.clean_columns df)))
    (λ e,
      call (st_error ("Error loading file: " ++ str_of e));;
      mret None).

Definition validate_dataframe
    (df : option DataFrame) (file_name required_column : str) : St bool :=
  match df with
  | None => mret false
  | Some df =>
      if negb (pd.contains required_column df) then
        call (st_error ("'" ++ required_column ++ "' column not found in "
                        ++ file_name));;
        call (st_write_list "Available columns:" (columns df));;
        mret false
      else mret true
  end.

Definition create_download_link (df : DataFrame) (filename : str) : xlsx :=
  Xlsx "Non_HRT_Attendees" df.

(** One uploader column of the page: load, report, preview. *)
Definition upload (file : option UploadedFile) (sheet what : str)
  : St (option DataFrame) :=
  match file with
  | None => mret None
  | Some f =>
      df ← load_excel_file f sheet;
      match df with
      | Some d =>
          call (st_success ("Loaded " ++ str.format (pd.len d) ++ " " ++ what));;
          call (st_dataframe (head_rows 5 d));;
          call (st_write_list "**Columns:**" (columns d))
      | None => mret ()
      end;;
      mret df
  end.

(** The body of the [try] block. *)
Definition filter_and_report (hrt_df bbq_df : DataFrame) (comparison_column : str)
  : St (option DataFrame) :=
  keys ← eval (pd.getitem bbq_df comparison_column);
  majors ← eval (pd.getitem hrt_df comparison_column);
  non_hrt_attendees ← eval (pd.getitem_mask bbq_df (pd.invert (pd.isin keys majors)));
  call (st_write "### Results:");;
  call (st_write ("- **Total BBQ Attendees:** " ++ str.format (pd.len bbq_df)));;
  call (st_write ("- **HRT Majors:** " ++ str.format (pd.len hrt_df)));;
  call (st_write ("- **HRT Majors at BBQ:** "
                  ++ str.format (Z.of_nat (pd.len bbq_df)
                              - Z.of_nat (pd.len non_hrt_attendees))%Z));;
  call (st_write ("- **Non-HRT Attendees:** " ++ str.format (pd.len non_hrt_attendees)));;
  (if bool_decide (0 < pd.len non_hrt_attendees) then
     call (st_dataframe non_hrt_attendees);;
     call (st_download_button "Non_HRT_BBQ_Attendees.xlsx"
             (create_download_link non_hrt_attendees "Non_HRT_BBQ_Attendees.xlsx"))
   else
     call (st_info "All BBQ attendees are HRT majors!"));;
  mret (Some non_hrt_attendees).

(** The processing section, entered when both frames are bound. *)
Definition process (hrt_df bbq_df : DataFrame) (comparison_column : str)
    (button : bool) : St (option DataFrame) :=
  hrt_valid ← validate_dataframe (Some hrt_df) "HRT Majors" comparison_column;
  bbq_valid ← validate_dataframe (Some bbq_df) "BBQ Attendees" comparison_column;
  if hrt_valid && bbq_valid then
    if button then
      try_except
        (filter_and_report hrt_df bbq_df comparison_column)
        (λ e,
          call (st_error ("Error processing data: " ++ str_of e));;
          mret None)
    else mret None
  else
    call (st_markdown "Cannot Process");;
    mret None.

Definition main (w : widgets) : St locals :=
  hrt_df ← upload (hrt_file w) (hrt_sheet w) "HRT majors";
  bbq_df ← upload (bbq_file w) (bbq_sheet w) "BBQ attendees";
  match hrt_df, bbq_df with
  | Some hrt, Some bbq =>
      non_hrt_attendees ← process hrt bbq (comparison_column w) (filter_button w);
      mret (Locals hrt_df bbq_df non_hrt_attendees)
  | _, _ => mret (Locals hrt_df bbq_df None)
  end.

End streamlit_app.

(** ** [pages/testing_area_app.py] *)

Module testing_area_app.

(** What the user did.  A select box holds the position the user picked
    in the list it shows, or nothing while it is untouched. *)
Record widgets : Type := Widgets {
  hrt_sheet : str;
  bbq_sheet : str;
  hrt_file : option UploadedFile;
  bbq_file : option UploadedFile;
  hrt_column_select : option nat;
  bbq_column_select : option nat;
  filter_button : bool
}.

Record locals : Type := Locals {
  hrt_df : option DataFrame;
  bbq_df : option DataFrame;
  hrt_comparison_column : option str;
  bbq_comparison_column : option str;
  non_hrt_attendees : option DataFrame;
  hrt_at_bbq : option DataFrame
}.

Definition load_excel_file (uploaded_file : UploadedFile) (sheet_name : str)
  : St (option DataFrame) :=
  try_except
    (df ← eval (read_excel uploaded_file sheet_name);
     mret (Some (pd.clean_columns df)))
    (λ e,
      match class_of e with
      | ImportError =>
          call (st_error "**Missing Dependency Error** Please install openpyxl: `pip install openpyxl`")
      | FileNotFoundError =>
          call (st_error ("Sheet '" ++ sheet_name
                          ++ "' not found in the Excel file. Please check the sheet name."))
      | _ =>
          call (st_error ("Error loading file: " ++ str_of e));;
          call (st_info "**Troubleshooting tips:**");;
          call (st_write "- Make sure the file is a valid Excel file (.xlsx or .xls)");;
          call (st_write "- Check that the sheet name is correct");;
          call (st_write "- Ensure the file is not corrupted or password-protected")
      end;;
      mret None).

Definition validate_dataframe
    (df : option DataFrame) (file_name required_column : str) : St bool :=
  match df with
  | None => mret false
  | Some df =>
      if negb (pd.contains required_column df) then
        call (st_error ("'" ++ required_column ++ "' column not found in "
                        ++ file_name));;
        call (st_write_list "Available columns:" (columns df));;
        mret false
      else mret true
  end.

Definition create_download_link (df : DataFrame) (filename : str) : xlsx :=
  Xlsx "Non_HRT_Attendees" df.

Definition upload (file : option UploadedFile) (sheet what : str)
  : St (option DataFrame) :=
  match file with
  | None => mret None
  | Some f =>
      df ← load_excel_file f sheet;
      match df with
      | Some d =>
          call (st_success ("Loaded " ++ str.format (pd.len d) ++ " " ++ what));;
          call (st_dataframe (head_rows 5 d));;
          call (st_write_list "**Columns:**" (columns d))
      | None => mret ()
      end;;
      mret df
  end.

(** Truth value of an optional string: [None] and the empty string are
    false. *)
Definition truthy (c : option str) : bool :=
  match c with Some s => str.truthy s | None => false end.

Definition keywords : list str :=
  ["bronco id"; "id"; "student id"; "student_id"].

(** [any(keyword in col.lower() for keyword in [...])] *)
Definition id_like (col : str) : bool :=
  existsb (λ keyword, str.contains keyword (str.lower col)) keywords.

(** [idx = 0; for i, col in enumerate(options): if test(col): idx = i; break] *)
Fixpoint first_index (test : str → bool) (i : nat) (options : list str) : nat :=
  match options with
  | [] => 0
  | col :: rest => if test col then i else first_index test (S i) rest
  end.

(** [st.selectbox(options=..., index=...)]: the option at the position
    picked, at [index] while untouched; nothing when there is none. *)
Definition selectbox (options : list str) (index : nat) (pick : option nat)
  : option str :=
  options !! default index pick.

(** The majors' select box: it opens on the first label that looks like
    an identifier. *)
Definition hrt_choice (hrt_df : DataFrame) (pick : option nat) : option str :=
  let hrt_column_options := columns hrt_df in
  let default_hrt_idx := first_index id_like 0 hrt_column_options in
  selectbox hrt_column_options default_hrt_idx pick.

(** The attendees' select box: it opens on the first label that equals
    the majors' choice up to case, or looks like an identifier. *)
Definition bbq_choice (bbq_df : DataFrame) (hrt_comparison_column : option str)
    (pick : option nat) : option str :=
  let bbq_column_options := columns bbq_df in
  let default_bbq_idx :=
    if truthy hrt_comparison_column then
      first_index
        (λ col, bool_decide (str.lower col
                             = str.lower (default [] hrt_comparison_column))
                || id_like col)
        0 bbq_column_options
    else 0 in
  selectbox bbq_column_options default_bbq_idx pick.

Definition show_samples (df : DataFrame) (col : option str) : St () :=
  if truthy col then
    s ← eval (pd.getitem df (default [] col));
    call (st_write_values "**Sample values:**" (take 3 (pd.dropna s)))
  else mret ().

Section python.

(** [type(sample).__name__] for the first non-empty cell of a column.
    Which class a number arrives in ([int], [numpy.int64],
    [numpy.float64]) is decided by the dtype pandas gave the column. *)
Variable type_name : Series → scalar → str.

(** The data type validation at the end of the column selection. *)
Definition type_check (hrt_df bbq_df : DataFrame) (ka kb : str) : St () :=
  hs ← eval (pd.getitem hrt_df ka);
  bs ← eval (pd.getitem bbq_df kb);
  match head (pd.dropna hs), head (pd.dropna bs) with
  | Some hrt_sample, Some bbq_sample =>
      let hrt_type := type_name hs hrt_sample in
      let bbq_type := type_name bs bbq_sample in
      if bool_decide (hrt_type ≠ bbq_type) then
        call (st_warning ("**Data Type Mismatch:** HRT column contains "
                          ++ hrt_type ++ " while BBQ column contains "
                          ++ bbq_type
                          ++ ". This might affect comparison accuracy."))
      else
        call (st_success ("**Data Types Match:** Both columns contain "
                          ++ hrt_type ++ " values."))
  | _, _ => mret ()
  end.

(** The column selection section, entered when both frames are bound. *)
Definition column_selection (hrt_df bbq_df : DataFrame)
    (hrt_pick bbq_pick : option nat) : St (option str * option str) :=
  let hrt_comparison_column := hrt_choice hrt_df hrt_pick in
  show_samples hrt_df hrt_comparison_column;;
  let bbq_comparison_column := bbq_choice bbq_df hrt_comparison_column bbq_pick in
  show_samples bbq_df bbq_comparison_column;;
  (if truthy hrt_comparison_column && truthy bbq_comparison_column then
     let ka := default [] hrt_comparison_column in
     let kb := default [] bbq_comparison_column in
     call (st_markdown ("Comparison Setup: HRT Majors column: " ++ ka
                        ++ "; BBQ Attendees column: " ++ kb
                        ++ "; Comparison method: Find BBQ attendees whose "
                        ++ kb ++ " is NOT in the HRT Majors " ++ ka ++ " list"));;
     type_check hrt_df bbq_df ka kb
   else mret ());;
  mret (hrt_comparison_column, bbq_comparison_column).

End python.

(** [name_col]: the first attendee column whose lowered label has "name". *)
Definition find_name_col (cols : list str) : option str :=
  head (filter (λ col, str.contains "name" (str.lower col) = true) cols).

Definition shape (df : DataFrame) : str :=
  "(" ++ str.format (pd.len df) ++ ", " ++ str.format (length (columns df)) ++ ")".

(** The body of the [try] block. *)
Definition filter_and_report (hrt_df bbq_df : DataFrame) (ka kb : str)
  : St (option DataFrame * option DataFrame) :=
  keys ← eval (pd.getitem bbq_df kb);
  majors ← eval (pd.getitem hrt_df ka);
  non_hrt_attendees ← eval (pd.getitem_mask bbq_df (pd.invert (pd.isin keys majors)));
  call (st_write "### Results:");;
  call (st_write ("- **Total BBQ Attendees:** " ++ str.format (pd.len bbq_df)));;
  call (st_write ("- **Total HRT Majors:** " ++ str.format (pd.len hrt_df)));;
  call (st_write ("- **HRT Majors at BBQ:** "
                  ++ str.format (Z.of_nat (pd.len bbq_df)
                              - Z.of_nat (pd.len non_hrt_attendees))%Z));;
  call (st_write ("- **Non-HRT Attendees:** " ++ str.format (pd.len non_hrt_attendees)));;
  call (st_write ("- **Comparison Method:** Comparing '" ++ kb
                  ++ "' with '" ++ ka ++ "'"));;
  keys' ← eval (pd.getitem bbq_df kb);
  majors' ← eval (pd.getitem hrt_df ka);
  hrt_at_bbq ← eval (pd.getitem_mask bbq_df (pd.isin keys' majors'));
  (if bool_decide (0 < pd.len hrt_at_bbq) then
     match find_name_col (columns bbq_df) with
     | Some name_col =>
         hrt_names ← eval (pd.getitem hrt_at_bbq name_col);
         call (st_write ("- **HRT Majors who attended BBQ:** "
                         ++ join ", " (scalar_str (pd.dtype_at bbq_df name_col)
                                         <$> hrt_names)))
     | None =>
         ids ← eval (pd.getitem hrt_at_bbq kb);
         call (st_write ("- **HRT Major IDs at BBQ:** "
                         ++ join ", " (scalar_str (pd.dtype_at bbq_df kb) <$> ids)))
     end
   else mret ());;
  (if bool_decide (0 < pd.len non_hrt_attendees) then
     call (st_dataframe non_hrt_attendees);;
     call (st_download_button "Non_HRT_BBQ_Attendees.xlsx"
             (create_download_link non_hrt_attendees "Non_HRT_BBQ_Attendees.xlsx"))
   else
     call (st_info "All BBQ attendees are HRT majors!"));;
  mret (Some non_hrt_attendees, Some hrt_at_bbq).

(** The processing section, entered when both frames are bound; the two
    columns are read back from the session state of the select boxes. *)
Definition process (hrt_df bbq_df : DataFrame)
    (hrt_comparison_column bbq_comparison_column : option str)
    (button : bool) : St (option DataFrame * option DataFrame) :=
  if truthy hrt_comparison_column && truthy bbq_comparison_column then
    let ka := default [] hrt_comparison_column in
    let kb := default [] bbq_comparison_column in
    let hrt_valid := pd.contains ka hrt_df in
    let bbq_valid := pd.contains kb bbq_df in
    (if negb hrt_valid
     then call (st_error ("Column '" ++ ka ++ "' not found in HRT Majors file"))
     else mret ());;
    (if negb bbq_valid
     then call (st_error ("Column '" ++ kb ++ "' not found in BBQ Attendees file"))
     else mret ());;
    if hrt_valid && bbq_valid then
      if button then
        try_except
          (filter_and_report hrt_df bbq_df ka kb)
          (λ e,
            call (st_error ("Error processing data: " ++ str_of e));;
            call (st_write "**Debug info:**");;
            call (st_write ("- HRT column: " ++ ka));;
            call (st_write ("- BBQ column: " ++ kb));;
            call (st_write ("- HRT shape: " ++ shape hrt_df));;
            call (st_write ("- BBQ shape: " ++ shape bbq_df));;
            mret (None, None))
      else mret (None, None)
    else
      call (st_markdown "Cannot Process");;
      mret (None, None)
  else
    call (st_markdown "Column Selection Required");;
    mret (None, None).

Definition main (type_name : Series → scalar → str) (w : widgets) : St locals :=
  hrt_df ← upload (hrt_file w) (hrt_sheet w) "HRT majors";
  bbq_df ← upload (bbq_file w) (bbq_sheet w) "BBQ attendees";
  match hrt_df, bbq_df with
  | Some hrt, Some bbq =>
      '(ka, kb) ← column_selection type_name hrt bbq
                    (hrt_column_select w) (bbq_column_select w);
      '(non_hrt_attendees, hrt_at_bbq) ← process hrt bbq ka kb (filter_button w);
      mret (Locals hrt_df bbq_df ka kb non_hrt_attendees hrt_at_bbq)
  | _, _ =>
      call (st_markdown "Column Selection");;
      mret (Locals hrt_df bbq_df None None None None)
  end.

End testing_area_app.

(** ** The contract, in the words of the specification

    A table is a sequence of rows, each row a mapping from column name to
    cell; so the labels of a table are pairwise distinct. *)

Definition table (df : DataFrame) : Prop := NoDup (columns df).

(** A row as a mapping from label to cell. *)
Definition as_mapping (df : DataFrame) (r : row) : gmap str scalar :=
  list_to_map (zip (columns df) r).

(** [r[c]]; a cell the row does not have is empty. *)
Definition at_label (df : DataFrame) (c : str) (r : row) : scalar :=
  default NaN (as_mapping df r !! c).

(** [{ a[ka] for a in A }], as the list of those values. *)
Definition key_values (A : DataFrame) (ka : str) : list scalar :=
  at_label A ka <$> rows A.

(** [B' = { row in B | row[kb] not in { a[ka] for a in A } }] *)
Definition anti_join (A : DataFrame) (ka : str) (B : DataFrame) (kb : str)
  : DataFrame :=
  mkDataFrame (columns B)
    (filter (λ r, at_label B kb r ∉ key_values A ka) (rows B)).

(** The complement: the attendee rows whose key is among the majors'. *)
Definition semi_join (A : DataFrame) (ka : str) (B : DataFrame) (kb : str)
  : DataFrame :=
  mkDataFrame (columns B)
    (filter (λ r, at_label B kb r ∈ key_values A ka) (rows B)).

(** [A] with the later rows of a repeated key value removed
    ([A.drop_duplicates(subset=ka)]). *)
Fixpoint drop_seen (A : DataFrame) (ka : str) (seen : gset scalar)
    (rs : list row) : list row :=
  match rs with
  | [] => []
  | r :: rs' =>
      if decide (at_label A ka r ∈ seen) then drop_seen A ka seen rs'
      else r :: drop_seen A ka ({[at_label A ka r]} ∪ seen) rs'
  end.

Definition drop_duplicates (A : DataFrame) (ka : str) : DataFrame :=
  mkDataFrame (columns A) (drop_seen A ka ∅ (rows A)).

(** A file that loads: [pd.read_excel] returns [raw] for the sheet, and the
    loader hands on [raw] with its labels cleaned. *)
Definition loads (file : option UploadedFile) (sheet : str) (df : DataFrame)
  : Prop :=
  ∃ f raw, file = Some f ∧ f sheet = inr raw ∧ df = pd.clean_columns raw.

(** A cell the model holds as pandas does: a whole number is within the
    range a float holds exactly. *)
Definition exact (v : scalar) : Prop :=
  match v with
  | Int z => (Z.abs z ≤ 2 ^ 53)%Z
  | _ => True
  end.

(** How often a row occurs. *)
Definition occurrences (r : row) (rs : list row) : nat :=
  length (filter (λ r', r' = r) rs).

(** No [st.error] among the calls. *)
Definition quiet (l : list st_call) : Prop :=
  Forall (λ c, match c with st_error _ => False | _ => True end) l.

(** The two calls [validate_dataframe] makes for a missing column. *)
Definition missing_report (df : DataFrame) (file_name required_column : str)
  : list st_call :=
  [st_error ("'" ++ required_column ++ "' column not found in " ++ file_name);
   st_write_list "Available columns:" (columns df)].

(** The warning of the data type validation. *)
Definition mismatch_warning (hrt_type bbq_type : str) : st_call :=
  st_warning ("**Data Type Mismatch:** HRT column contains "
              ++ hrt_type ++ " while BBQ column contains "
              ++ bbq_type
              ++ ". This might affect comparison accuracy.").

(** What the data type validation logs for the key columns. *)
Definition type_report (type_name : Series → scalar → str)
    (A : DataFrame) (ka : str) (B : DataFrame) (kb : str) : list st_call :=
  match head (pd.dropna (key_values A ka)), head (pd.dropna (key_values B kb)) with
  | Some hrt_sample, Some bbq_sample =>
      let hrt_type := type_name (key_values A ka) hrt_sample in
      let bbq_type := type_name (key_values B kb) bbq_sample in
      if bool_decide (hrt_type ≠ bbq_type) then [mismatch_warning hrt_type bbq_type]
      else
        [st_success ("**Data Types Match:** Both columns contain "
                     ++ hrt_type ++ " values.")]
  | _, _ => []
  end.

(** A run of [streamlit_app.py] in which both files load, [k] is the
    comparison column typed in the sidebar, and the button is pressed. *)
Definition streamlit_pressed (w : streamlit_app.widgets)
    (A : DataFrame) (B : DataFrame) (k : str) : Prop :=
  loads (streamlit_app.hrt_file w) (streamlit_app.hrt_sheet w) A
  ∧ loads (streamlit_app.bbq_file w) (streamlit_app.bbq_sheet w) B
  ∧ streamlit_app.comparison_column w = k
  ∧ streamlit_app.filter_button w = true.

(** [non_hrt_attendees] at the end of that script. *)
Definition streamlit_result (w : streamlit_app.widgets) : option DataFrame :=
  match out (streamlit_app.main w) with
  | Ok L => streamlit_app.non_hrt_attendees L
  | _ => None
  end.

(** A run of [testing_area_app.py] in which both files load, the select
    boxes stand on [ka] and [kb], and the button is pressed. *)
Definition testing_pressed (w : testing_area_app.widgets)
    (A : DataFrame) (ka : str) (B : DataFrame) (kb : str) : Prop :=
  loads (testing_area_app.hrt_file w) (testing_area_app.hrt_sheet w) A
  ∧ loads (testing_area_app.bbq_file w) (testing_area_app.bbq_sheet w) B
  ∧ testing_area_app.hrt_choice A (testing_area_app.hrt_column_select w) = Some ka
  ∧ testing_area_app.bbq_choice B (Some ka) (testing_area_app.bbq_column_select w)
    = Some kb
  ∧ testing_area_app.filter_button w = true.

(** [non_hrt_attendees] and [hrt_at_bbq] at the end of that script. *)
Definition testing_result (type_name : Series → scalar → str)
    (w : testing_area_app.widgets) : option DataFrame :=
  match out (testing_area_app.main type_name w) with
  | Ok L => testing_area_app.non_hrt_attendees L
  | _ => None
  end.

Definition testing_complement (type_name : Series → scalar → str)
    (w : testing_area_app.widgets) : option DataFrame :=
  match out (testing_area_app.main type_name w) with
  | Ok L => testing_area_app.hrt_at_bbq L
  | _ => None
  end.

(** Every such run of either script ends with [R] in [non_hrt_attendees].
    The first script compares on one label; the second does not run the
    filter for an empty label. *)
Definition both_return (A : DataFrame) (ka : str) (B : DataFrame) (kb : str)
    (R : DataFrame) : Prop :=
  (∀ w, ka = kb → streamlit_pressed w A B ka → streamlit_result w = Some R)
  ∧ (∀ type_name w, ka ≠ [] → kb ≠ [] →
       testing_pressed w A ka B kb → testing_result type_name w = Some R).

(** The line of the summary that counts the majors present. *)
Definition majors_at_bbq_line (B R : DataFrame) : st_call :=
  st_write ("- **HRT Majors at BBQ:** "
            ++ str.format (Z.of_nat (pd.len B) - Z.of_nat (pd.len R))%Z).

(** ** Sample sheets *)

(** A type-name map for the sample runs: what [type(x).__name__] gives on a
    sheet of whole numbers, text and empty cells.  A column of numbers only
    is [int64], numbers with gaps [float64], and a column that has text
    keeps the Python objects. *)
Definition numpy_type_name (s : Series) (v : scalar) : str :=
  if forallb (λ x, match x with Int _ => true | _ => false end) s then "int64"
  else if forallb (λ x, match x with Str _ => false | _ => true end) s then "float64"
  else match v with
       | NaN => "float"
       | Int _ => "int"
       | Str _ => "str"
       end.

Definition workbook (df : DataFrame) : UploadedFile := λ _, inr df.

Definition majors_sheet : DataFrame :=
  mkDataFrame [" ID "] [[Int 1]; [Int 2]; [Int 2]; [NaN]].

Definition attendees_sheet : DataFrame :=
  mkDataFrame ["Id"; "Name"]
    [[Int 1; Str "X"]; [Int 3; Str "Y"]; [NaN; Str "W"]; [Int 3; Str "Y"]].

Definition majors : DataFrame := pd.clean_columns majors_sheet.
Definition attendees : DataFrame := pd.clean_columns attendees_sheet.

Definition no_majors : DataFrame := mkDataFrame ["id"] [].

Definition text_attendees_sheet : DataFrame :=
  mkDataFrame ["Student ID"] [[Str "123"]; [Str "7"]].
Definition number_majors_sheet : DataFrame :=
  mkDataFrame ["Bronco ID"] [[Int 123]].

Definition mismatch_run : testing_area_app.widgets :=
  testing_area_app.Widgets "Sheet1" "Sheet1"
    (Some (workbook number_majors_sheet)) (Some (workbook text_attendees_sheet))
    None None true.

(** Key columns that open with text on both sides and differ further
    down: the majors' keys go on with numbers, the attendees' with text. *)
Definition mixed_majors_sheet : DataFrame :=
  mkDataFrame ["ID"] [[Str "a"]; [Int 1]; [Int 2]].
Definition text_keys_sheet : DataFrame :=
  mkDataFrame ["ID"] [[Str "a"]; [Str "1"]].

Definition mixed_run : testing_area_app.widgets :=
  testing_area_app.Widgets "Sheet1" "Sheet1"
    (Some (workbook mixed_majors_sheet)) (Some (workbook text_keys_sheet))
    None None true.

(** The two sheets uploaded to each script, the button pressed. *)
Definition bbq_run : streamlit_app.widgets :=
  streamlit_app.Widgets "id" "Sheet1" "Sheet1"
    (Some (workbook majors_sheet)) (Some (workbook attendees_sheet)) true.

Definition bbq_test_run : testing_area_app.widgets :=
  testing_area_app.Widgets "Sheet1" "Sheet1"
    (Some (workbook majors_sheet)) (Some (workbook attendees_sheet))
    None None true.

(** The same with a majors sheet that has a header and no rows. *)
Definition no_majors_run : streamlit_app.widgets :=
  streamlit_app.Widgets "id" "Sheet1" "Sheet1"
    (Some (workbook no_majors)) (Some (workbook attendees_sheet)) true.

Definition capitalised_run : streamlit_app.widgets :=
  streamlit_app.Widgets "Bronco ID" "Sheet1" "Sheet1"
    (Some (workbook number_majors_sheet)) (Some (workbook number_majors_sheet))
    true.

(** A string of white space only. *)
Definition all_space (s : str) : bool := forallb str.isspace s.

(** What an uploader that yields no frame logs: the loader's error when the
    file could not be read, nothing when no file was given. *)
Definition load_failure (file : option UploadedFile) (sheet : str)
  : list st_call :=
  match file with
  | Some f =>
      match f sheet with
      | inl e => [st_error ("Error loading file: " ++ str_of e)]
      | inr _ => []
      end
  | None => []
  end.

(** The summary and the result as [streamlit_app.py] shows them. *)
Definition summary_lines (hrt_df bbq_df R : DataFrame) : list st_call :=
  [st_write "### Results:";
   st_write ("- **Total BBQ Attendees:** " ++ str.format (pd.len bbq_df));
   st_write ("- **HRT Majors:** " ++ str.format (pd.len hrt_df));
   majors_at_bbq_line bbq_df R;
   st_write ("- **Non-HRT Attendees:** " ++ str.format (pd.len R))].

Definition result_view (R : DataFrame) : list st_call :=
  if bool_decide (0 < pd.len R) then
    [st_dataframe R;
     st_download_button "Non_HRT_BBQ_Attendees.xlsx" (Xlsx "Non_HRT_Attendees" R)]
  else [st_info "All BBQ attendees are HRT majors!"].

(** Sheets for the further sample runs. *)
Definition unreadable : UploadedFile :=
  λ _, inl (Exn OtherError "File is not a zip file").

Definition broken_run : streamlit_app.widgets :=
  streamlit_app.Widgets "id" "Sheet1" "Sheet1"
    (Some unreadable) (Some (workbook attendees_sheet)) true.

Definition idle_run : streamlit_app.widgets :=
  streamlit_app.Widgets "id" "Sheet1" "Sheet1"
    (Some (workbook majors_sheet)) (Some (workbook attendees_sheet)) false.

Definition no_attendees : DataFrame := mkDataFrame ["id"; "name"] [].

Definition no_attendees_run : streamlit_app.widgets :=
  streamlit_app.Widgets "id" "Sheet1" "Sheet1"
    (Some (workbook majors_sheet)) (Some (workbook no_attendees)) true.

(** A header whose capital has no lower-case form (U+2102). *)
Definition double_struck_sheet : DataFrame :=
  mkDataFrame ["ℂ ID"] [[Int 1]].

Definition blank_header_sheet : DataFrame :=
  mkDataFrame ["  "; "Name"] [[Int 1; Str "X"]].

Definition blank_header_run : testing_area_app.widgets :=
  testing_area_app.Widgets "Sheet1" "Sheet1"
    (Some (workbook blank_header_sheet)) (Some (workbook attendees_sheet))
    None None true.

(** ** Facts about [str] *)

Section str_facts.
Import str.

Lemma in_stride_span c lo hi step :
  step ≠ 0%N → in_stride c lo hi step = true → c ∈ span lo hi step.
Proof.
  unfold in_stride, between. intros Hs H.
  apply andb_true_iff in H as [[H1 H2]%andb_true_iff H3].
  apply N.leb_le in H1, H2. apply N.eqb_eq in H3.
  unfold span. apply list_elem_of_fmap. exists (N.to_nat ((c - lo) / step)). split.
  - rewrite N2Nat.id. pose proof (N.div_mod' (c - lo) step) as D.
    rewrite H3, N.add_0_r in D. rewrite <- D. clear D H3. lia.
  - apply elem_of_seq. split; [apply Nat.le_0_l|].
    assert ((c - lo) / step ≤ (hi - lo) / step)%N as Hle
      by (apply N.Div0.div_le_mono; lia).
    generalize dependent ((c - lo) / step)%N.
    generalize dependent ((hi - lo) / step)%N. intros. clear H3. lia.
Qed.

Lemma lower_ranges_steps :
  Forall (λ '(_, _, step, _), step ≠ 0%N) lower_ranges.
Proof. by apply (bool_decide_unpack _); vm_compute. Qed.

(** A code point is its own lower-case form, or it is in the list. *)
Lemma tolower_full_cases c :
  (tolower_full c = [c] ∧ c ≠ 931%N) ∨ (c, tolower_full c) ∈ lower_pairs.
Proof.
  unfold tolower_full. destruct (c =? 304)%N eqn:E.
  - right. apply N.eqb_eq in E. subst c. apply list_elem_of_here.
  - destruct (List.find _ lower_ranges) as [[[[lo hi] step] to]|] eqn:F.
    + right. apply find_some in F as [Hin Hs]. apply list_elem_of_further.
      apply list_elem_of_bind. exists (lo, hi, step, to).
      apply list_elem_of_In in Hin. split; [|done].
      apply (list_elem_of_fmap_2 (λ c, (c, [to + (c - lo)]))%N).
      apply in_stride_span; [|done].
      by apply (proj1 (Forall_forall _ _) lower_ranges_steps (lo, hi, step, to)).
    + left. split; [done|]. intros ->. by vm_compute in F.
Qed.

Lemma lower_pairs_checked :
  Forall (λ '(c, out),
            out ≠ [] ∧ Forall (λ d, lower_changes d = false ∧ isspace d = false) out)
    lower_pairs.
Proof. by apply (bool_decide_unpack _); vm_compute. Qed.


Lemma tolower_full_checked c :
  tolower_full c ≠ []
  ∧ Forall (λ d, lower_changes d = false) (tolower_full c)
  ∧ (isspace c = false → Forall (λ d, isspace d = false) (tolower_full c)).
Proof.
  destruct (tolower_full_cases c) as [[Hc Hne]|Hin].
  - rewrite Hc. split; [done|]. split; [|by repeat constructor].
    repeat constructor. unfold lower_changes.
    rewrite (proj2 (N.eqb_neq c 931) Hne), bool_decide_eq_true_2; done.
  - pose proof (proj1 (Forall_forall _ _) lower_pairs_checked _ Hin) as [Hne Hout].
    split; [done|]. split; [|intros _]; eapply Forall_impl; [exact Hout| |exact Hout|];
      simpl; tauto.
Qed.

Lemma handle_capital_sigma_cases before after :
  handle_capital_sigma before after = 962%N
  ∨ handle_capital_sigma before after = 963%N.
Proof. unfold handle_capital_sigma. destruct (_ && _); auto. Qed.

Lemma lower_ucs4_checked before c after :
  lower_ucs4 before c after ≠ []
  ∧ Forall (λ d, lower_changes d = false) (lower_ucs4 before c after)
  ∧ (isspace c = false → Forall (λ d, isspace d = false) (lower_ucs4 before c after)).
Proof.
  unfold lower_ucs4. destruct (c =? 931)%N; [|apply tolower_full_checked].
  destruct (handle_capital_sigma_cases before after) as [-> | ->];
    (split; [done|]; split; [|intros _]; by repeat constructor).
Qed.

(** A character that [lower] leaves alone is left alone wherever it
    stands. *)
Lemma lower_ucs4_unchanged before c after :
  lower_changes c = false ↔ lower_ucs4 before c after = [c].
Proof.
  unfold lower_changes, lower_ucs4. rewrite orb_false_iff, negb_false_iff.
  destruct (c =? 931)%N eqn:E.
  - apply N.eqb_eq in E. subst c. split; [by intros [? _]|].
    destruct (handle_capital_sigma_cases before after) as [-> | ->]; discriminate.
  - rewrite bool_decide_eq_true. tauto.
Qed.

Lemma do_lower_settled before s :
  Forall (λ d, lower_changes d = false) (do_lower before s).
Proof.
  revert before. induction s as [|c s IH]; intros before; simpl; [constructor|].
  apply Forall_app. split; [apply lower_ucs4_checked|apply IH].
Qed.

Lemma do_lower_id before s :
  Forall (λ d, lower_changes d = false) s → do_lower before s = s.
Proof.
  revert before. induction s as [|c s IH]; intros before Hs; simpl; [done|].
  apply Forall_cons in Hs as [Hc Hs].
  rewrite (proj1 (lower_ucs4_unchanged before c s) Hc), (IH _ Hs). done.
Qed.

Lemma lower_idem s : lower (lower s) = lower s.
Proof. apply do_lower_id, do_lower_settled. Qed.

Lemma length_do_lower before s : length s ≤ length (do_lower before s).
Proof.
  revert before. induction s as [|c s IH]; intros before; simpl; [done|].
  rewrite length_app. specialize (IH (c :: before)).
  destruct (lower_ucs4 before c s) eqn:E; [by apply lower_ucs4_checked in E|].
  simpl. lia.
Qed.

(** [lower] returns its argument only when it has nothing to change. *)
Lemma do_lower_fixed before s :
  do_lower before s = s → Forall (λ d, lower_changes d = false) s.
Proof.
  revert before. induction s as [|c s IH]; intros before H; [constructor|].
  simpl in H. pose proof (length_do_lower (c :: before) s) as Hlen.
  destruct (lower_ucs4 before c s) as [|p ps] eqn:E;
    [by apply lower_ucs4_checked in E|].
  simpl in H. injection H as -> Hrest.
  assert (ps = []) as ->.
  { apply (f_equal length) in Hrest. rewrite length_app in Hrest.
    destruct ps; [done|]. simpl in Hrest. lia. }
  constructor; [by apply (lower_ucs4_unchanged before c s)|].
  by apply (IH (c :: before)).
Qed.

Lemma existsb_false {A} (f : A → bool) l :
  existsb f l = false ↔ Forall (λ x, f x = false) l.
Proof.
  induction l as [|x l IH]; simpl; [by split; [constructor|]|].
  rewrite orb_false_iff, Forall_cons, IH. done.
Qed.

Lemma lower_fixed s : lower s = s ↔ existsb lower_changes s = false.
Proof.
  rewrite existsb_false. split; [apply do_lower_fixed|apply do_lower_id].
Qed.

Lemma leading_space_lower s :
  leading_space s = false → leading_space (lower s) = false.
Proof.
  destruct s as [|c s]; [done|]. unfold lower. simpl. intros Hc.
  destruct (lower_ucs4_checked [] c s) as (Hne & _ & Hsp).
  destruct (lower_ucs4 [] c s) as [|p ps]; [done|].
  simpl. by apply Forall_cons in Hsp as [? _].
Qed.

Lemma trailing_space_app s t :
  t ≠ [] → trailing_space (s ++ t) = trailing_space t.
Proof.
  intros Ht. induction s as [|x s IH]; [done|].
  simpl. destruct (s ++ t) eqn:E; [by apply app_eq_nil in E as [_ ?]|done].
Qed.

Lemma trailing_space_none s :
  Forall (λ d, isspace d = false) s → trailing_space s = false.
Proof.
  induction 1 as [|x s Hx Hs IH]; [done|]. simpl. by destruct s.
Qed.

Lemma trailing_space_do_lower before s :
  trailing_space s = false → trailing_space (do_lower before s) = false.
Proof.
  revert before. induction s as [|c s IH]; intros before H; [done|].
  cbn [do_lower]. destruct s as [|c' s'].
  - rewrite app_nil_r. apply trailing_space_none. by apply lower_ucs4_checked.
  - rewrite trailing_space_app; [by apply IH|].
    pose proof (length_do_lower (c :: before) (c' :: s')) as Hlen.
    intros E. rewrite E in Hlen. simpl in Hlen. lia.
Qed.

Lemma trailing_space_lower s :
  trailing_space s = false → trailing_space (lower s) = false.
Proof. apply trailing_space_do_lower. Qed.

Lemma lower_nil s : lower s = [] ↔ s = [].
Proof.
  split; [|by intros ->]. intros H. pose proof (length_do_lower [] s) as Hlen.
  fold (lower s) in Hlen. rewrite H in Hlen. destruct s; [done|]. simpl in Hlen. lia.
Qed.

Lemma leading_space_lstrip s : leading_space (lstrip s) = false.
Proof.
  induction s as [|c s IH]; simpl; [done|].
  destruct (isspace c) eqn:Hc; [done|]. simpl. by rewrite Hc.
Qed.

Lemma lstrip_id s : leading_space s = false → lstrip s = s.
Proof. destruct s as [|c s]; simpl; [done|]. by intros ->. Qed.

Lemma leading_space_rstrip s :
  leading_space s = false → leading_space (rstrip s) = false.
Proof.
  destruct s as [|c s]; simpl; [done|]. intros Hc.
  destruct (rstrip s); simpl; by rewrite Hc.
Qed.

Lemma trailing_space_rstrip s : trailing_space (rstrip s) = false.
Proof.
  induction s as [|c s IH]; simpl; [done|].
  destruct (rstrip s) as [|d t] eqn:Hs.
  - destruct (isspace c) eqn:Hc; simpl; [done|]. by rewrite Hc.
  - exact IH.
Qed.

Lemma rstrip_id s : trailing_space s = false → rstrip s = s.
Proof.
  induction s as [|c s IH]; [done|]. intros H. simpl.
  destruct s as [|d t]; [simpl in *; by rewrite H|].
  rewrite IH by done. done.
Qed.

Lemma leading_space_strip s : leading_space (strip s) = false.
Proof. apply leading_space_rstrip, leading_space_lstrip. Qed.

Lemma trailing_space_strip s : trailing_space (strip s) = false.
Proof. apply trailing_space_rstrip. Qed.

Lemma strip_id s :
  leading_space s = false → trailing_space s = false → strip s = s.
Proof. intros Hl Ht. unfold strip. by rewrite lstrip_id, rstrip_id. Qed.

Lemma strip_idem s : strip (strip s) = strip s.
Proof. apply strip_id; [apply leading_space_strip|apply trailing_space_strip]. Qed.

(** A cleaned label has nothing left for [lower] to change and no white
    space around it. *)
Lemma cleaned_label h :
  existsb lower_changes (lower (strip h)) = false
  ∧ leading_space (lower (strip h)) = false
  ∧ trailing_space (lower (strip h)) = false.
Proof.
  split; [apply existsb_false, do_lower_settled|]. split.
  - apply leading_space_lower, leading_space_strip.
  - apply trailing_space_lower, trailing_space_strip.
Qed.

Lemma ascii_capitals_change c : (65 ≤ c ≤ 90)%N → lower_changes c = true.
Proof.
  intros [H1 H2]. unfold lower_changes, tolower_full.
  assert (Hc : c ∈ span 65 90 1).
  { apply in_stride_span; [done|]. unfold in_stride, between.
    rewrite N.mod_1_r. by rewrite !andb_true_iff, !N.leb_le. }
  revert Hc. generalize c. by apply Forall_forall, (bool_decide_unpack _); vm_compute.
Qed.

Lemma clean_label_idem s : lower (strip (lower (strip s))) = lower (strip s).
Proof.
  destruct (cleaned_label s) as (_ & Hl & Ht).
  by rewrite strip_id, lower_idem.
Qed.

Lemma lstrip_split s : ∃ pre, s = pre ++ lstrip s ∧ forallb isspace pre = true.
Proof.
  induction s as [|c s (pre & Hs & Hpre)]; [by exists []|].
  simpl. destruct (isspace c) eqn:Hc.
  - exists (c :: pre). simpl. rewrite <- Hs, Hc. done.
  - by exists [].
Qed.

Lemma rstrip_split s : ∃ post, s = rstrip s ++ post ∧ forallb isspace post = true.
Proof.
  induction s as [|c s (post & Hs & Hpost)]; [by exists []|].
  simpl. destruct (rstrip s) as [|d t] eqn:Hr.
  - simpl in Hs. subst post. destruct (isspace c) eqn:Hc.
    + exists (c :: s). simpl. by rewrite Hc.
    + by exists s.
  - exists post. split; [|done]. simpl. f_equal. exact Hs.
Qed.

Lemma lstrip_all_space s : forallb isspace s = true → lstrip s = [].
Proof.
  induction s as [|c s IH]; simpl; [done|].
  intros [-> Hs]%andb_true_iff. by apply IH.
Qed.

(** Only white space strips to nothing. *)
Lemma strip_nil s : strip s = [] ↔ forallb isspace s = true.
Proof.
  split.
  - intros H. destruct (lstrip_split s) as (pre & Hs & Hpre).
    destruct (rstrip_split (lstrip s)) as (post & Ht & Hpost).
    fold (strip s) in Ht. rewrite H in Ht. simpl in Ht.
    rewrite Hs, Ht, forallb_app, Hpre, Hpost. done.
  - intros H. unfold strip. by rewrite lstrip_all_space.
Qed.

(** [needle in hay] holds exactly when [hay] has [needle] as a substring. *)
Lemma contains_spec n h : contains n h = true ↔ ∃ p q, h = p ++ n ++ q.
Proof.
  induction h as [|d h IH]; cbn [contains].
  - rewrite orb_false_r, bool_decide_eq_true. split.
    + intros [q Hq]. by exists [], q.
    + intros (p & q & Hpq). destruct p as [|c p]; [by exists q|done].
  - rewrite orb_true_iff, bool_decide_eq_true, IH. split.
    + intros [[q Hq]|(p & q & Hpq)].
      * by exists [], q.
      * exists (d :: p), q. by rewrite Hpq.
    + intros (p & q & Hpq). destruct p as [|c p].
      * left. by exists q.
      * right. exists p, q. simpl in Hpq. congruence.
Qed.

Lemma contains_trans a b c :
  contains a b = true → contains b c = true → contains a c = true.
Proof.
  rewrite !contains_spec. intros (p & q & ->) (p' & q' & ->).
  exists (p' ++ p), (q ++ q'). by rewrite <- !app_assoc.
Qed.

End str_facts.

(** ** Facts about the pandas operations *)

Section pd_facts.
Import pd.

Lemma positions_shift c k cols :
  positions c (S k) cols = S <$> positions c k cols.
Proof.
  revert k. induction cols as [|c' cols IH]; intros k; simpl; [done|].
  case_decide; simpl; by rewrite IH.
Qed.

Lemma positions_absent c k cols : c ∉ cols → positions c k cols = [].
Proof.
  revert k. induction cols as [|c' cols IH]; intros k Hc; simpl; [done|].
  apply not_elem_of_cons in Hc as [Hne Hc].
  rewrite decide_False by done. by apply IH.
Qed.

Lemma positions_unique c cols :
  NoDup cols → c ∈ cols → ∃ i, positions c 0 cols = [i].
Proof.
  induction 1 as [|c' cols Hnotin Hnd IH]; intros Hc; [by apply elem_of_nil in Hc|].
  simpl. case_decide as Heq.
  - subst c'. rewrite positions_absent by done. by exists 0.
  - apply elem_of_cons in Hc as [->|Hc]; [done|].
    destruct (IH Hc) as [j Hj]. rewrite positions_shift, Hj. by exists (S j).
Qed.

Lemma positions_present c k cols : c ∈ cols → positions c k cols ≠ [].
Proof.
  revert k. induction cols as [|c' cols IH]; intros k Hc; [by apply elem_of_nil in Hc|].
  simpl. case_decide as Heq; [done|].
  apply elem_of_cons in Hc as [->|Hc]; [done|]. by apply IH.
Qed.

(** The cell at the one position labelled [c] is the row's [c]. *)
Lemma cell_at_label cols c i (r : row) :
  positions c 0 cols = [i] →
  cell i r = default NaN ((list_to_map (zip cols r) : gmap str scalar) !! c).
Proof.
  unfold cell. revert r i.
  induction cols as [|c' cols IH]; intros r i; simpl; [done|].
  case_decide as Heq.
  - intros [= <- _]. subst c'. destruct r as [|x r]; simpl; [done|].
    by rewrite lookup_insert_eq.
  - rewrite positions_shift. intros Hpos.
    destruct (positions c 0 cols) as [|j [|??]] eqn:Hj; simplify_eq/=.
    destruct r as [|x r]; simpl; [done|].
    rewrite lookup_insert_ne by done. by apply IH.
Qed.

(** On a table, [df[c]] for a label of the table is the Series of the
    rows' [c] cells. *)
Lemma getitem_table df c :
  table df → c ∈ columns df → getitem df c = Ok (at_label df c <$> rows df).
Proof.
  intros Hnd Hc. destruct (positions_unique c (columns df) Hnd Hc) as [i Hi].
  unfold getitem. rewrite Hi. f_equal.
  apply list_fmap_ext. intros _ r _. by apply cell_at_label.
Qed.

Lemma dtype_at_table df c :
  table df → c ∈ columns df → dtype_at df c = dtype_of (key_values df c).
Proof. intros Hdf Hc. unfold dtype_at. by rewrite getitem_table. Qed.

Lemma getitem_absent df c :
  c ∉ columns df → getitem df c = Raise (Exn KeyError c).
Proof. intros Hc. unfold getitem. by rewrite positions_absent. Qed.

Lemma select_test (f : row → bool) rs :
  select rs (f <$> rs) = filter (λ r, f r = true) rs.
Proof.
  induction rs as [|r rs IH]; csimpl; [done|].
  rewrite filter_cons. destruct (f r); simpl; by rewrite IH.
Qed.

Lemma isin_fmap (f : row → scalar) rs values :
  isin (f <$> rs) values = (λ r, bool_decide (f r ∈ values)) <$> rs.
Proof.
  unfold isin. rewrite <- list_fmap_compose. apply list_fmap_ext.
  intros _ r _. simpl. apply bool_decide_ext, elem_of_list_to_set.
Qed.

Lemma length_isin s values : length (isin s values) = length s.
Proof. unfold isin. by rewrite length_fmap. Qed.

Lemma length_invert mask : length (invert mask) = length mask.
Proof. unfold invert. by rewrite length_fmap. Qed.

(** [df[~df[kb].isin(values)]], rows by rows. *)
Lemma select_not_isin (f : row → scalar) rs values :
  select rs (invert (isin (f <$> rs) values)) = filter (λ r, f r ∉ values) rs.
Proof.
  rewrite isin_fmap. unfold invert. rewrite <- list_fmap_compose.
  rewrite (select_test (negb ∘ (λ r, bool_decide (f r ∈ values)))).
  apply list_filter_iff. intros r. simpl.
  rewrite negb_true_iff, bool_decide_eq_false. done.
Qed.

Lemma select_isin (f : row → scalar) rs values :
  select rs (isin (f <$> rs) values) = filter (λ r, f r ∈ values) rs.
Proof.
  rewrite isin_fmap. rewrite select_test.
  apply list_filter_iff. intros r. by rewrite bool_decide_eq_true.
Qed.

(** The filter expression of both scripts, on tables. *)
Lemma non_hrt_expr A ka B kb :
  table A → table B → ka ∈ columns A → kb ∈ columns B →
  ∃ keys majors,
    getitem B kb = Ok keys ∧ getitem A ka = Ok majors ∧
    getitem_mask B (invert (isin keys majors)) = Ok (anti_join A ka B kb) ∧
    getitem_mask B (isin keys majors) = Ok (semi_join A ka B kb).
Proof.
  intros HA HB Hka Hkb.
  exists (at_label B kb <$> rows B), (at_label A ka <$> rows A).
  split; [by apply getitem_table|]. split; [by apply getitem_table|].
  unfold getitem_mask.
  rewrite length_invert, !length_isin, !length_fmap, !decide_True by done.
  split; f_equal; unfold anti_join, semi_join; f_equal.
  - apply select_not_isin.
  - apply select_isin.
Qed.

(** The two halves of a split of [B] add up to [B]. *)
Lemma anti_semi_count A ka B kb :
  len (anti_join A ka B kb) + len (semi_join A ka B kb) = len B.
Proof.
  unfold len, anti_join, semi_join. simpl.
  induction (rows B) as [|r rs IH]; simpl; [done|].
  rewrite !filter_cons. destruct (decide (at_label B kb r ∈ key_values A ka)).
  - rewrite decide_False by naive_solver. simpl. lia.
  - rewrite decide_True by done. simpl. lia.
Qed.

Lemma drop_seen_keys A ka seen rs :
  (list_to_set (at_label A ka <$> drop_seen A ka seen rs) : gset scalar) ∪ seen
  = list_to_set (at_label A ka <$> rs) ∪ seen.
Proof.
  revert seen. induction rs as [|r rs IH]; intros seen; csimpl; [done|].
  case_decide as Hin; csimpl.
  - rewrite IH. set (x := at_label A ka r) in *.
    set (Y := list_to_set (at_label A ka <$> rs) : gset scalar).
    clearbody x Y. set_unfold. intros y. intuition congruence.
  - specialize (IH ({[at_label A ka r]} ∪ seen)).
    set (x := at_label A ka r) in *.
    set (X := list_to_set (at_label A ka <$> drop_seen A ka ({[x]} ∪ seen) rs)
              : gset scalar) in *.
    set (Y := list_to_set (at_label A ka <$> rs) : gset scalar) in *.
    clearbody x X Y. set_unfold. intros y. specialize (IH y). tauto.
Qed.

Lemma drop_seen_fresh A ka seen rs :
  NoDup (at_label A ka <$> drop_seen A ka seen rs) ∧
  ∀ v, v ∈ at_label A ka <$> drop_seen A ka seen rs → v ∉ seen.
Proof.
  revert seen. induction rs as [|r rs IH]; intros seen; simpl.
  - split; [constructor|]. intros v Hv. by apply elem_of_nil in Hv.
  - case_decide as Hin; [apply IH|].
    destruct (IH ({[at_label A ka r]} ∪ seen)) as [Hnd Hfresh]. simpl. split.
    + constructor; [|done]. intros Hv. apply Hfresh in Hv.
      apply Hv, elem_of_union_l, elem_of_singleton. done.
    + intros v [->|Hv]%elem_of_cons; [done|]. apply Hfresh in Hv.
      intros Hs. apply Hv, elem_of_union_r, Hs.
Qed.

(** Dropping repeated keys keeps the same key values, each once. *)
Lemma drop_duplicates_keys A ka :
  NoDup (key_values (drop_duplicates A ka) ka) ∧
  ∀ v, v ∈ key_values (drop_duplicates A ka) ka ↔ v ∈ key_values A ka.
Proof.
  change (key_values (drop_duplicates A ka) ka)
    with (at_label A ka <$> drop_seen A ka ∅ (rows A)).
  unfold key_values. split.
  - apply (drop_seen_fresh A ka ∅ (rows A)).
  - intros v. pose proof (drop_seen_keys A ka ∅ (rows A)) as H.
    rewrite !(right_id_L ∅ (∪)) in H.
    rewrite <- (elem_of_list_to_set (C := gset scalar)), H.
    apply elem_of_list_to_set.
Qed.

Lemma anti_join_same_keys A A' ka ka' B kb :
  (∀ v, v ∈ key_values A ka ↔ v ∈ key_values A' ka') →
  anti_join A ka B kb = anti_join A' ka' B kb.
Proof.
  intros H. unfold anti_join. f_equal. apply list_filter_iff.
  intros r. by rewrite H.
Qed.

End pd_facts.

(** ** Facts about the scripts *)

(** Unfold one step of a script whose next outcome is known. *)
Ltac st_step :=
  cbn [mbind St_bind mret St_ret call eval try_except out log
       fst snd negb andb orb default from_option id].

Lemma quiet_error l e : quiet l → st_error e ∉ l.
Proof. intros Hq He. by apply (proj1 (Forall_forall _ _) Hq) in He. Qed.

Ltac quiet_tac :=
  unfold quiet;
  repeat first
    [ apply Forall_nil_2
    | apply Forall_cons_2; [exact I|]
    | apply Forall_app_2 ];
  try assumption.

Lemma no_warning l :
  forallb (λ c, match c with st_warning _ => false | _ => true end) l = true →
  ∀ body, st_warning body ∉ l.
Proof.
  intros Hl body Hin. apply list_elem_of_In in Hin.
  by apply (proj1 (forallb_forall _ _) Hl) in Hin.
Qed.

Lemma loads_inv file sheet df df' :
  loads file sheet df → loads file sheet df' → df = df'.
Proof. intros (f & raw & -> & Hf & ->) (f' & raw' & [= <-] & Hf' & ->). congruence. Qed.

Section streamlit_app_facts.
Import streamlit_app.

Lemma upload_loads file sheet what df :
  loads file sheet df →
  upload file sheet what
  = mkSt (Ok (Some df))
      [st_success ("Loaded " ++ str.format (pd.len df) ++ " " ++ what);
       st_dataframe (head_rows 5 df);
       st_write_list "**Columns:**" (columns df)].
Proof.
  intros (f & raw & -> & Hf & ->).
  unfold upload, load_excel_file, read_excel. rewrite Hf. reflexivity.
Qed.

Lemma validate_present df file_name c :
  c ∈ columns df → validate_dataframe (Some df) file_name c = mkSt (Ok true) [].
Proof.
  intros Hc. unfold validate_dataframe, pd.contains.
  by rewrite bool_decide_eq_true_2.
Qed.

Lemma validate_absent df file_name c :
  c ∉ columns df →
  validate_dataframe (Some df) file_name c
  = mkSt (Ok false) (missing_report df file_name c).
Proof.
  intros Hc. unfold validate_dataframe, pd.contains.
  by rewrite bool_decide_eq_false_2.
Qed.

Lemma filter_and_report_table A B c :
  table A → table B → c ∈ columns A → c ∈ columns B →
  ∃ l, filter_and_report A B c = mkSt (Ok (Some (anti_join A c B c))) l
       ∧ quiet l ∧ majors_at_bbq_line B (anti_join A c B c) ∈ l.
Proof.
  intros HA HB HcA HcB.
  destruct (non_hrt_expr A c B c HA HB HcA HcB) as (keys & majors & Hk & Hm & Hr & _).
  unfold filter_and_report. rewrite Hk, Hm. st_step. rewrite Hr. st_step.
  case_bool_decide; st_step;
    (eexists; split; [reflexivity|]; split; [quiet_tac|];
     do 3 apply list_elem_of_further; apply list_elem_of_here).
Qed.

Lemma process_table A B c :
  table A → table B → c ∈ columns A → c ∈ columns B →
  ∃ l, process A B c true = mkSt (Ok (Some (anti_join A c B c))) l
       ∧ quiet l ∧ majors_at_bbq_line B (anti_join A c B c) ∈ l.
Proof.
  intros HA HB HcA HcB.
  destruct (filter_and_report_table A B c HA HB HcA HcB) as (l & Hl & Hq).
  unfold process. rewrite (validate_present A), (validate_present B) by done.
  st_step. rewrite Hl. st_step. by exists l.
Qed.

Lemma process_idle A B c :
  c ∈ columns A → c ∈ columns B → process A B c false = mkSt (Ok None) [].
Proof.
  intros HcA HcB. unfold process.
  by rewrite (validate_present A), (validate_present B) by done.
Qed.

(** With a column missing, the processing section reports and stops. *)
Lemma process_missing A B c button :
  c ∉ columns A ∨ c ∉ columns B →
  process A B c button
  = mkSt (Ok None)
      ((if bool_decide (c ∈ columns A) then []
        else missing_report A "HRT Majors" c)
       ++ (if bool_decide (c ∈ columns B) then []
           else missing_report B "BBQ Attendees" c)
       ++ [st_markdown "Cannot Process"]).
Proof.
  intros Hmiss. unfold process.
  destruct (decide (c ∈ columns A)) as [HA|HA];
    destruct (decide (c ∈ columns B)) as [HB|HB]; [by destruct Hmiss|..].
  - rewrite (validate_present A), (validate_absent B) by done.
    by rewrite bool_decide_eq_true_2, bool_decide_eq_false_2 by done.
  - rewrite (validate_absent A), (validate_present B) by done.
    by rewrite bool_decide_eq_false_2, bool_decide_eq_true_2 by done.
  - rewrite (validate_absent A), (validate_absent B) by done.
    by rewrite !bool_decide_eq_false_2 by done.
Qed.

Lemma main_loaded w A B :
  loads (hrt_file w) (hrt_sheet w) A →
  loads (bbq_file w) (bbq_sheet w) B →
  out (main w)
  = match out (process A B (comparison_column w) (filter_button w)) with
    | Ok r => Ok (Locals (Some A) (Some B) r)
    | Raise e => Raise e
    | OutOfModel => OutOfModel
    end
  ∧ log (main w)
    = log (upload (hrt_file w) (hrt_sheet w) "HRT majors")
      ++ log (upload (bbq_file w) (bbq_sheet w) "BBQ attendees")
      ++ log (process A B (comparison_column w) (filter_button w)).
Proof.
  intros HA HB. unfold main.
  rewrite (upload_loads _ _ _ _ HA), (upload_loads _ _ _ _ HB). st_step.
  destruct (process A B (comparison_column w) (filter_button w)) as [[r|e|] l];
    st_step; by rewrite ?app_nil_r.
Qed.

End streamlit_app_facts.

Section testing_area_app_facts.
Import testing_area_app.

Variable type_name : Series → scalar → str.

Lemma testing_upload_loads file sheet what df :
  loads file sheet df →
  upload file sheet what
  = mkSt (Ok (Some df))
      [st_success ("Loaded " ++ str.format (pd.len df) ++ " " ++ what);
       st_dataframe (head_rows 5 df);
       st_write_list "**Columns:**" (columns df)].
Proof.
  intros (f & raw & -> & Hf & ->).
  unfold upload, load_excel_file, read_excel. rewrite Hf. reflexivity.
Qed.

Lemma truthy_Some c : truthy (Some c) = true ↔ c ≠ [].
Proof. destruct c; simpl; split; congruence. Qed.

Lemma selectbox_elem options index pick c :
  selectbox options index pick = Some c → c ∈ options.
Proof. apply list_elem_of_lookup_2. Qed.

Lemma show_samples_table df col :
  table df → (∀ c, col = Some c → c ∈ columns df) →
  ∃ l, show_samples df col = mkSt (Ok ()) l ∧ quiet l.
Proof.
  intros Hdf Hcol. unfold show_samples.
  destruct (truthy col) eqn:Ht; [|exists []; split; [done|quiet_tac]].
  destruct col as [c|]; [|done]. st_step.
  rewrite getitem_table by auto. st_step.
  eexists. split; [reflexivity|quiet_tac].
Qed.

Lemma type_report_quiet A ka B kb : quiet (type_report type_name A ka B kb).
Proof.
  unfold type_report.
  destruct (head _); [|quiet_tac]. destruct (head _); [|quiet_tac].
  simpl. case_bool_decide; quiet_tac.
Qed.

Lemma type_check_table A B ka kb :
  table A → table B → ka ∈ columns A → kb ∈ columns B →
  type_check type_name A B ka kb = mkSt (Ok ()) (type_report type_name A ka B kb).
Proof.
  intros HA HB Hka Hkb. unfold type_check, type_report.
  rewrite (getitem_table A), (getitem_table B) by done. st_step.
  fold (key_values A ka). fold (key_values B kb).
  destruct (head (pd.dropna (key_values A ka))); [|done].
  destruct (head (pd.dropna (key_values B kb))); [|done].
  simpl. by case_bool_decide.
Qed.

Lemma hrt_choice_elem A pick a : hrt_choice A pick = Some a → a ∈ columns A.
Proof. apply selectbox_elem. Qed.

Lemma bbq_choice_elem B ka pick b : bbq_choice B ka pick = Some b → b ∈ columns B.
Proof. apply selectbox_elem. Qed.

Lemma column_selection_table A B hrt_pick bbq_pick :
  table A → table B →
  let ka := hrt_choice A hrt_pick in
  let kb := bbq_choice B ka bbq_pick in
  ∃ l,
    column_selection type_name A B hrt_pick bbq_pick = mkSt (Ok (ka, kb)) l
    ∧ quiet l
    ∧ (∀ a b c, ka = Some a → kb = Some b → a ≠ [] → b ≠ [] →
         c ∈ type_report type_name A a B b → c ∈ l).
Proof.
  intros HA HB ka kb. unfold column_selection. fold ka. fold kb.
  assert (HkaA : ∀ a, ka = Some a → a ∈ columns A)
    by (intros a; apply hrt_choice_elem).
  assert (HkbB : ∀ b, kb = Some b → b ∈ columns B)
    by (intros b; apply bbq_choice_elem).
  destruct (show_samples_table A ka HA HkaA) as (l1 & -> & Hq1).
  destruct (show_samples_table B kb HB HkbB) as (l2 & -> & Hq2).
  clearbody ka kb. st_step.
  destruct ka as [a|], kb as [b|]; simpl truthy;
    try (eexists; split; [reflexivity|]; split; [quiet_tac|]; done).
  - destruct (str.truthy a) eqn:Ha, (str.truthy b) eqn:Hb; st_step;
      try (eexists; split; [reflexivity|]; split; [quiet_tac|];
           intros a' b' c [= <-] [= <-] Ha' Hb';
           apply truthy_Some in Ha', Hb'; simpl in *; congruence).
    rewrite type_check_table by auto. st_step.
    eexists. split; [reflexivity|].
    split; [quiet_tac; apply type_report_quiet|].
    intros a' b' c [= <-] [= <-] _ _ Hc.
    rewrite !elem_of_app. tauto.
  - destruct (str.truthy a); st_step;
      (eexists; split; [reflexivity|]; split; [quiet_tac|]; done).
Qed.

Lemma find_name_col_elem cols n : find_name_col cols = Some n → n ∈ cols.
Proof.
  unfold find_name_col. intros H%head_Some_elem_of.
  by apply list_elem_of_filter in H as [_ H].
Qed.

Lemma testing_filter_and_report_table A B ka kb :
  table A → table B → ka ∈ columns A → kb ∈ columns B →
  ∃ l, filter_and_report A B ka kb
       = mkSt (Ok (Some (anti_join A ka B kb), Some (semi_join A ka B kb))) l
       ∧ quiet l.
Proof.
  intros HA HB Hka Hkb.
  destruct (non_hrt_expr A ka B kb HA HB Hka Hkb)
    as (keys & majors & Hk & Hm & Hr & Hs).
  unfold filter_and_report. rewrite Hk, Hm. st_step. rewrite Hr. st_step.
  rewrite Hs. st_step.
  assert (Hsemi : table (semi_join A ka B kb)) by exact HB.
  destruct (bool_decide (0 < pd.len (semi_join A ka B kb)));
    [destruct (find_name_col (columns B)) as [n|] eqn:Hn;
      [rewrite (getitem_table (semi_join A ka B kb) n Hsemi)
         by (by apply find_name_col_elem)
      |rewrite (getitem_table (semi_join A ka B kb) kb Hsemi) by done]|];
    st_step; case_bool_decide; st_step;
    (eexists; split; [reflexivity|quiet_tac]).
Qed.

End testing_area_app_facts.

Section testing_area_app_runs.
Import testing_area_app.

Variable type_name : Series → scalar → str.

Lemma testing_process_table A B a b :
  table A → table B → a ∈ columns A → b ∈ columns B → a ≠ [] → b ≠ [] →
  ∃ l, process A B (Some a) (Some b) true
       = mkSt (Ok (Some (anti_join A a B b), Some (semi_join A a B b))) l
       ∧ quiet l.
Proof.
  intros HA HB Ha Hb Hna Hnb.
  destruct (testing_filter_and_report_table A B a b HA HB Ha Hb) as (l & Hl & Hq).
  unfold process, pd.contains.
  rewrite (proj2 (truthy_Some a)), (proj2 (truthy_Some b)) by done.
  rewrite !bool_decide_eq_true_2 by done. st_step. rewrite Hl. st_step.
  by exists l.
Qed.

(** On tables, the processing section never reports an error. *)
Lemma testing_process_quiet A B ka kb button :
  table A → table B →
  (∀ a, ka = Some a → a ∈ columns A) → (∀ b, kb = Some b → b ∈ columns B) →
  ∃ r l, process A B ka kb button = mkSt (Ok r) l ∧ quiet l.
Proof.
  intros HA HB Hka Hkb. unfold process.
  destruct (truthy ka && truthy kb) eqn:Ht;
    [|st_step; eexists _, _; split; [reflexivity|quiet_tac]].
  apply andb_true_iff in Ht as [Hta Htb].
  destruct ka as [a|]; [|done]. destruct kb as [b|]; [|done].
  apply truthy_Some in Hta, Htb.
  destruct button.
  - destruct (testing_process_table A B a b) as (l & Hl & Hq); auto.
    unfold process in Hl. rewrite (proj2 (truthy_Some a)), (proj2 (truthy_Some b)) in Hl by done.
    simpl andb in Hl. cbv iota in Hl. eauto.
  - unfold pd.contains. rewrite !bool_decide_eq_true_2 by auto. st_step.
    eexists _, _; split; [reflexivity|quiet_tac].
Qed.

Lemma testing_main_run w A B :
  loads (hrt_file w) (hrt_sheet w) A →
  loads (bbq_file w) (bbq_sheet w) B →
  table A → table B →
  let ka := hrt_choice A (hrt_column_select w) in
  let kb := bbq_choice B ka (bbq_column_select w) in
  ∃ r s l,
    main type_name w = mkSt (Ok (Locals (Some A) (Some B) ka kb r s)) l
    ∧ quiet l
    ∧ (∀ a b, ka = Some a → kb = Some b → a ≠ [] → b ≠ [] →
         (∀ c, c ∈ type_report type_name A a B b → c ∈ l)
         ∧ (filter_button w = true →
            r = Some (anti_join A a B b) ∧ s = Some (semi_join A a B b))).
Proof.
  intros HlA HlB HA HB ka kb. unfold main.
  rewrite (testing_upload_loads _ _ _ _ HlA), (testing_upload_loads _ _ _ _ HlB).
  st_step.
  destruct (column_selection_table type_name A B (hrt_column_select w)
              (bbq_column_select w) HA HB) as (lc & -> & Hqc & Hrep).
  fold ka kb in Hrep |- *. st_step.
  assert (HkaA : ∀ a, ka = Some a → a ∈ columns A)
    by (intros a; apply hrt_choice_elem).
  assert (HkbB : ∀ b, kb = Some b → b ∈ columns B)
    by (intros b; apply bbq_choice_elem).
  destruct (testing_process_quiet A B ka kb (filter_button w) HA HB HkaA HkbB)
    as ([r s] & lp & Hp & Hqp).
  rewrite Hp. st_step. exists r, s. eexists. split; [reflexivity|].
  split; [quiet_tac|].
  intros a b Hka Hkb Hna Hnb. split.
  - intros c Hc. specialize (Hrep a b c Hka Hkb Hna Hnb Hc).
    rewrite !elem_of_app. tauto.
  - intros Hbtn. rewrite Hka, Hkb, Hbtn in Hp.
    destruct (testing_process_table A B a b) as (l' & Hl' & _); auto.
    rewrite Hl' in Hp. by simplify_eq.
Qed.

End testing_area_app_runs.

(** ** What a pressed run returns *)

Lemma streamlit_returns w A B k :
  table A → table B → k ∈ columns A → k ∈ columns B →
  streamlit_pressed w A B k →
  streamlit_result w = Some (anti_join A k B k)
  ∧ majors_at_bbq_line B (anti_join A k B k) ∈ log (streamlit_app.main w).
Proof.
  intros HA HB HkA HkB (HlA & HlB & Hk & Hbtn).
  destruct (main_loaded w A B HlA HlB) as [Hout Hlog].
  destruct (process_table A B k HA HB HkA HkB) as (l & Hl & _ & Hline).
  rewrite Hk, Hbtn, Hl in Hout, Hlog. simpl in Hout, Hlog.
  unfold streamlit_result. rewrite Hout, Hlog. split; [done|].
  rewrite !elem_of_app. tauto.
Qed.

Lemma testing_returns type_name w A ka B kb :
  table A → table B → ka ≠ [] → kb ≠ [] →
  testing_pressed w A ka B kb →
  testing_result type_name w = Some (anti_join A ka B kb)
  ∧ testing_complement type_name w = Some (semi_join A ka B kb)
  ∧ quiet (log (testing_area_app.main type_name w))
  ∧ (∀ c, c ∈ type_report type_name A ka B kb →
          c ∈ log (testing_area_app.main type_name w))
  ∧ (∃ L, out (testing_area_app.main type_name w) = Ok L
          ∧ testing_area_app.hrt_df L = Some A
          ∧ testing_area_app.bbq_df L = Some B).
Proof.
  intros HA HB Hna Hnb (HlA & HlB & Hka & Hkb & Hbtn).
  destruct (testing_main_run type_name w A B HlA HlB HA HB)
    as (r & s & l & Hmain & Hq & Hsel).
  rewrite Hka in Hsel. destruct (Hsel ka kb eq_refl Hkb Hna Hnb) as [Hrep Hres].
  destruct (Hres Hbtn) as [-> ->].
  unfold testing_result, testing_complement. rewrite Hmain. simpl.
  repeat (split; [done|]). by eexists.
Qed.

(** Columns of one type each: the first non-empty cell has that type. *)
Lemma first_cell_type (type_name : Series → scalar → str) (s : Series) T :
  (∀ v, v ∈ pd.dropna s → type_name s v = T) → pd.dropna s ≠ [] →
  ∃ v, head (pd.dropna s) = Some v ∧ type_name s v = T.
Proof.
  intros Hall Hne. destruct (pd.dropna s) as [|v vs] eqn:Hs; [done|].
  exists v. split; [done|]. apply Hall. apply list_elem_of_here.
Qed.

(** When every non-empty key cell of [A] has one type and every non-empty
    key cell of [B] another, the second script warns. *)
Lemma uniform_columns_warn type_name w A ka B kb T1 T2 :
  table A → table B → ka ≠ [] → kb ≠ [] →
  testing_pressed w A ka B kb →
  (∀ v, v ∈ pd.dropna (key_values A ka) → type_name (key_values A ka) v = T1) →
  (∀ v, v ∈ pd.dropna (key_values B kb) → type_name (key_values B kb) v = T2) →
  pd.dropna (key_values A ka) ≠ [] → pd.dropna (key_values B kb) ≠ [] →
  T1 ≠ T2 →
  mismatch_warning T1 T2 ∈ log (testing_area_app.main type_name w).
Proof.
  intros HA HB Hna Hnb Hw H1 H2 Hne1 Hne2 HT.
  destruct (testing_returns type_name w A ka B kb HA HB Hna Hnb Hw)
    as (_ & _ & _ & Hrep & _).
  destruct (first_cell_type type_name _ T1 H1 Hne1) as (h & Hh & <-).
  destruct (first_cell_type type_name _ T2 H2 Hne2) as (b & Hb & <-).
  apply Hrep. unfold type_report. rewrite Hh, Hb. simpl.
  rewrite bool_decide_eq_true_2 by done. apply list_elem_of_here.
Qed.

Lemma scripts_return A ka B kb :
  table A → table B → ka ∈ columns A → kb ∈ columns B →
  both_return A ka B kb (anti_join A ka B kb).
Proof.
  intros HA HB Hka Hkb. split.
  - intros w <- Hw. by apply streamlit_returns.
  - intros type_name w Hna Hnb Hw. by apply testing_returns.
Qed.

Lemma rows_anti_join A ka B kb r :
  r ∈ rows (anti_join A ka B kb) ↔ r ∈ rows B ∧ at_label B kb r ∉ key_values A ka.
Proof. unfold anti_join. simpl. rewrite list_elem_of_filter. tauto. Qed.

Lemma occurrences_filter (P : row → Prop) `{!∀ r, Decision (P r)} r rs :
  P r → occurrences r (filter P rs) = occurrences r rs.
Proof.
  intros Hr. unfold occurrences. induction rs as [|r' rs IH]; [done|].
  rewrite !filter_cons. destruct (decide (P r')) as [HP|HP].
  - rewrite !filter_cons. case_decide; simpl; by rewrite IH.
  - rewrite decide_False by congruence. done.
Qed.

Lemma filter_all (P : row → Prop) `{!∀ r, Decision (P r)} (rs : list row) :
  (∀ r, P r) → filter P rs = rs.
Proof.
  intros HP. induction rs as [|r rs IH]; [done|].
  rewrite filter_cons, decide_True by done. by rewrite IH.
Qed.

(** ** The sample runs *)

Lemma workbook_loads df sheet :
  loads (Some (workbook df)) sheet (pd.clean_columns df).
Proof. by eexists _, _. Qed.

Lemma bbq_run_pressed : streamlit_pressed bbq_run majors attendees "id".
Proof. repeat split; apply workbook_loads. Qed.

Lemma bbq_test_run_pressed : testing_pressed bbq_test_run majors "id" attendees "id".
Proof. split; [apply workbook_loads|]. split; [apply workbook_loads|]. by vm_compute. Qed.

Lemma no_majors_run_pressed : streamlit_pressed no_majors_run no_majors attendees "id".
Proof.
  split; [apply (workbook_loads no_majors)|]. split; [apply workbook_loads|]. done.
Qed.

(** ** The claims *)

(** C1. Anti-join contract: on tables [A] and [B] with key columns [ka] and
    [kb] present, a pressed run of either script returns exactly the rows
    of [B] whose [kb] value is not among the [ka] values of [A]; every
    returned row is a row of [B], and none has a key that occurs in [A]. *)
Theorem anti_join_contract (A : DataFrame) (ka : str) (B : DataFrame) (kb : str) :
  table A → table B → ka ∈ columns A → kb ∈ columns B →
  ∃ R, both_return A ka B kb R
       ∧ R = anti_join A ka B kb
       ∧ (∀ r, r ∈ rows R ↔ r ∈ rows B ∧ at_label B kb r ∉ key_values A ka)
       ∧ (∀ r, r ∈ rows R → r ∈ rows B)
       ∧ (∀ r, r ∈ rows R → at_label B kb r ∉ key_values A ka).
Proof.
  intros HA HB Hka Hkb. exists (anti_join A ka B kb).
  split; [by apply scripts_return|]. split; [done|].
  split; [apply rows_anti_join|].
  split; intros r Hr%rows_anti_join; tauto.
Qed.

Lemma anti_join_contract_witness :
  streamlit_result bbq_run
  = Some (mkDataFrame ["id"; "name"] [[Int 3; Str "Y"]; [Int 3; Str "Y"]])
  ∧ testing_result numpy_type_name bbq_test_run
    = Some (mkDataFrame ["id"; "name"] [[Int 3; Str "Y"]; [Int 3; Str "Y"]]).
Proof.
  destruct (anti_join_contract majors "id" attendees "id")
    as (R & [Hs Ht] & -> & _); [unfold table; compute_done..|].
  split.
  - rewrite (Hs bbq_run eq_refl bbq_run_pressed). by vm_compute.
  - rewrite (Ht numpy_type_name bbq_test_run)
      by (done || apply bbq_test_run_pressed).
    by vm_compute.
Defined.

(** C2. Partition count: the rows returned and the complement (the rows of
    [B] whose key is among [A]'s, which the second script computes as
    [hrt_at_bbq] and the first script counts by subtraction) add up to the
    rows of [B]. *)
Theorem partition_count (A : DataFrame) (ka : str) (B : DataFrame) (kb : str) :
  table A → table B → ka ∈ columns A → kb ∈ columns B →
  ∃ R C, both_return A ka B kb R
         ∧ C = semi_join A ka B kb
         ∧ pd.len R + pd.len C = pd.len B
         ∧ (∀ type_name w, ka ≠ [] → kb ≠ [] → testing_pressed w A ka B kb →
              testing_complement type_name w = Some C)
         ∧ (∀ w, ka = kb → streamlit_pressed w A B ka →
              majors_at_bbq_line B R ∈ log (streamlit_app.main w)
              ∧ (Z.of_nat (pd.len B) - Z.of_nat (pd.len R))%Z = Z.of_nat (pd.len C)).
Proof.
  intros HA HB Hka Hkb.
  exists (anti_join A ka B kb), (semi_join A ka B kb).
  pose proof (anti_semi_count A ka B kb) as Hcount.
  split; [by apply scripts_return|]. split; [done|]. split; [done|]. split.
  - intros type_name w Hna Hnb Hw. by apply testing_returns.
  - intros w <- Hw. split; [by apply streamlit_returns|]. lia.
Qed.

Lemma partition_count_witness :
  ∃ R C, streamlit_result bbq_run = Some R
         ∧ testing_complement numpy_type_name bbq_test_run = Some C
         ∧ pd.len R = 2 ∧ pd.len C = 2 ∧ pd.len attendees = 4
         ∧ st_write "- **HRT Majors at BBQ:** 2" ∈ log (streamlit_app.main bbq_run).
Proof.
  destruct (partition_count majors "id" attendees "id")
    as (R & C & [Hs _] & -> & Hsum & Ht & Hline); [unfold table; compute_done..|].
  exists R, (semi_join majors "id" attendees "id").
  pose proof (Hs bbq_run eq_refl bbq_run_pressed) as HR.
  split; [exact HR|].
  split; [apply Ht; done || apply bbq_test_run_pressed|].
  assert (R = anti_join majors "id" attendees "id") as ->
    by (apply (inj Some); rewrite <- HR; by vm_compute).
  split; [by vm_compute|]. split; [by vm_compute|]. split; [by vm_compute|].
  exact (proj1 (Hline bbq_run eq_refl bbq_run_pressed)).
Defined.

(** C3. Missing-column rejection: when the comparison column is absent
    from either loaded table, [streamlit_app.py] reports an error that
    names the column and the table, ends with the "Cannot Process" box,
    and never binds [non_hrt_attendees], whether or not the button is
    pressed. *)
Theorem missing_column_rejected (w : streamlit_app.widgets) (A B : DataFrame) :
  loads (streamlit_app.hrt_file w) (streamlit_app.hrt_sheet w) A →
  loads (streamlit_app.bbq_file w) (streamlit_app.bbq_sheet w) B →
  streamlit_app.comparison_column w ∉ columns A
  ∨ streamlit_app.comparison_column w ∉ columns B →
  let c := streamlit_app.comparison_column w in
  out (streamlit_app.main w) = Ok (streamlit_app.Locals (Some A) (Some B) None)
  ∧ streamlit_result w = None
  ∧ (c ∉ columns A →
     st_error ("'" ++ c ++ "' column not found in HRT Majors")
     ∈ log (streamlit_app.main w))
  ∧ (c ∉ columns B →
     st_error ("'" ++ c ++ "' column not found in BBQ Attendees")
     ∈ log (streamlit_app.main w))
  ∧ log (streamlit_app.main w)
    = log (streamlit_app.upload (streamlit_app.hrt_file w)
             (streamlit_app.hrt_sheet w) "HRT majors")
      ++ log (streamlit_app.upload (streamlit_app.bbq_file w)
                (streamlit_app.bbq_sheet w) "BBQ attendees")
      ++ (if bool_decide (c ∈ columns A) then []
          else missing_report A "HRT Majors" c)
      ++ (if bool_decide (c ∈ columns B) then []
          else missing_report B "BBQ Attendees" c)
      ++ [st_markdown "Cannot Process"].
Proof.
  intros HlA HlB Hmiss c.
  destruct (main_loaded w A B HlA HlB) as [Hout Hlog].
  rewrite (process_missing A B _ _ Hmiss) in Hout, Hlog. simpl in Hout, Hlog.
  fold c in Hout, Hlog.
  split; [done|]. split; [unfold streamlit_result; by rewrite Hout|].
  rewrite Hlog. split; [|split; [|done]]; intros Hc; rewrite !elem_of_app.
  - rewrite (bool_decide_eq_false_2 (c ∈ columns A)) by done.
    unfold missing_report at 1. rewrite elem_of_cons. tauto.
  - rewrite (bool_decide_eq_false_2 (c ∈ columns B)) by done.
    unfold missing_report at 2. rewrite (elem_of_cons _ _ (st_error _)). tauto.
Qed.

Lemma missing_column_rejected_witness :
  out (streamlit_app.main capitalised_run)
  = Ok (streamlit_app.Locals (Some (pd.clean_columns number_majors_sheet))
          (Some (pd.clean_columns number_majors_sheet)) None)
  ∧ st_error "'Bronco ID' column not found in HRT Majors"
    ∈ log (streamlit_app.main capitalised_run).
Proof.
  assert (Hl : loads (Some (workbook number_majors_sheet)) "Sheet1"
                 (pd.clean_columns number_majors_sheet))
    by (by eexists _, _).
  assert (Hc : "Bronco ID" ∉ columns (pd.clean_columns number_majors_sheet))
    by compute_done.
  destruct (missing_column_rejected capitalised_run _ _ Hl Hl (or_introl Hc))
    as (Hout & _ & Herr & _).
  split; [exact Hout|exact (Herr Hc)].
Defined.

(** C4. Literal empty-key comparison: when [A]'s key column has an empty
    cell, every row of [B] whose key cell is empty counts as matching and
    is left out of the result. *)
Theorem empty_key_matches_empty_key
    (A : DataFrame) (ka : str) (B : DataFrame) (kb : str) :
  table A → table B → ka ∈ columns A → kb ∈ columns B →
  NaN ∈ key_values A ka →
  ∃ R, both_return A ka B kb R
       ∧ ∀ r, r ∈ rows B → at_label B kb r = NaN → r ∉ rows R.
Proof.
  intros HA HB Hka Hkb Hnan. exists (anti_join A ka B kb).
  split; [by apply scripts_return|].
  intros r _ Hr [_ Hnot]%rows_anti_join. apply Hnot. by rewrite Hr.
Qed.

Lemma empty_key_matches_empty_key_witness :
  ∃ R, streamlit_result bbq_run = Some R
       ∧ [NaN; Str "W"] ∈ rows attendees
       ∧ [NaN; Str "W"] ∉ rows R.
Proof.
  destruct (empty_key_matches_empty_key majors "id" attendees "id")
    as (R & [Hs _] & Hout); [unfold table; compute_done..|].
  exists R. split; [exact (Hs bbq_run eq_refl bbq_run_pressed)|].
  split; [compute_done|]. apply Hout; [compute_done|by vm_compute].
Defined.

(** C5, as amended.  Type-mismatch warning is non-fatal: the second script
    takes the type of a key column from its first non-empty cell; when the
    two type names differ it logs the warning and no error, holds the two
    frames as loaded (no cell is converted), and still returns the
    anti-join by literal equality of cells, so a text key of [B] is kept
    when the keys of [A] are numbers. *)
Theorem type_mismatch_warning_is_not_fatal
    (type_name : Series → scalar → str) (w : testing_area_app.widgets)
    (A : DataFrame) (ka : str) (B : DataFrame) (kb : str)
    (hrt_sample bbq_sample : scalar) :
  table A → table B → ka ≠ [] → kb ≠ [] →
  testing_pressed w A ka B kb →
  head (pd.dropna (key_values A ka)) = Some hrt_sample →
  head (pd.dropna (key_values B kb)) = Some bbq_sample →
  type_name (key_values A ka) hrt_sample ≠ type_name (key_values B kb) bbq_sample →
  mismatch_warning (type_name (key_values A ka) hrt_sample)
                   (type_name (key_values B kb) bbq_sample)
  ∈ log (testing_area_app.main type_name w)
  ∧ (∀ e, st_error e ∉ log (testing_area_app.main type_name w))
  ∧ (∃ L, out (testing_area_app.main type_name w) = Ok L
          ∧ testing_area_app.hrt_df L = Some A
          ∧ testing_area_app.bbq_df L = Some B)
  ∧ testing_result type_name w = Some (anti_join A ka B kb)
  ∧ (∀ r s, r ∈ rows B → at_label B kb r = Str s →
            (∀ v, v ∈ key_values A ka → ∃ z, v = Int z) →
            r ∈ rows (anti_join A ka B kb)).
Proof.
  intros HA HB Hna Hnb Hw Hh Hb Hne.
  destruct (testing_returns type_name w A ka B kb HA HB Hna Hnb Hw)
    as (Hres & _ & Hq & Hrep & Hkeep).
  split; [|split; [|split; [exact Hkeep|split; [exact Hres|]]]].
  - apply Hrep. unfold type_report. rewrite Hh, Hb. simpl.
    rewrite bool_decide_eq_true_2 by done. apply list_elem_of_here.
  - intros e. by apply quiet_error.
  - intros r s Hr Hs Hnum. apply rows_anti_join. split; [done|].
    rewrite Hs. intros [z Hz]%Hnum. discriminate.
Qed.

Lemma type_mismatch_warning_is_not_fatal_witness :
  mismatch_warning "int64" "str"
  ∈ log (testing_area_app.main numpy_type_name mismatch_run)
  ∧ testing_result numpy_type_name mismatch_run
    = Some (pd.clean_columns text_attendees_sheet).
Proof.
  assert (Hw : testing_pressed mismatch_run
                 (pd.clean_columns number_majors_sheet) "bronco id"
                 (pd.clean_columns text_attendees_sheet) "student id").
  { split; [by eexists _, _|]. split; [by eexists _, _|]. by vm_compute. }
  assert (HA : table (pd.clean_columns number_majors_sheet))
    by (unfold table; compute_done).
  assert (HB : table (pd.clean_columns text_attendees_sheet))
    by (unfold table; compute_done).
  assert (Hh : head (pd.dropna (key_values (pd.clean_columns number_majors_sheet)
                                  "bronco id")) = Some (Int 123))
    by (by vm_compute).
  assert (Hb : head (pd.dropna (key_values (pd.clean_columns text_attendees_sheet)
                                  "student id")) = Some (Str "123"))
    by (by vm_compute).
  destruct (type_mismatch_warning_is_not_fatal
              numpy_type_name mismatch_run
              (pd.clean_columns number_majors_sheet) "bronco id"
              (pd.clean_columns text_attendees_sheet) "student id"
              (Int 123) (Str "123") HA HB)
    as (Hwarn & _ & _ & Hres & _);
    [done|done|exact Hw|exact Hh|exact Hb|by vm_compute|].
  split; [exact Hwarn|]. rewrite Hres. by vm_compute.
Defined.

(** C5, as first stated, fails: key columns that hold values of different
    types get no warning when their first non-empty cells agree.  The
    majors' keys are [a], 1, 2 and the attendees' [a], "1": the script
    reports matching types, and the text "1" is kept beside the number 1. *)
Lemma later_mismatch_gets_no_warning :
  Int 1 ∈ key_values (pd.clean_columns mixed_majors_sheet) "id"
  ∧ Str "1" ∈ key_values (pd.clean_columns text_keys_sheet) "id"
  ∧ numpy_type_name (key_values (pd.clean_columns mixed_majors_sheet) "id") (Int 1)
    = "int"
  ∧ numpy_type_name (key_values (pd.clean_columns text_keys_sheet) "id") (Str "1")
    = "str"
  ∧ testing_pressed mixed_run (pd.clean_columns mixed_majors_sheet) "id"
      (pd.clean_columns text_keys_sheet) "id"
  ∧ (∀ body, st_warning body ∉ log (testing_area_app.main numpy_type_name mixed_run))
  ∧ st_success "**Data Types Match:** Both columns contain str values."
    ∈ log (testing_area_app.main numpy_type_name mixed_run)
  ∧ testing_result numpy_type_name mixed_run
    = Some (mkDataFrame ["id"] [[Str "1"]]).
Proof.
  split; [compute_done|]. split; [compute_done|].
  split; [by vm_compute|]. split; [by vm_compute|].
  split; [split; [apply workbook_loads|split; [apply workbook_loads|by vm_compute]]|].
  split; [|split; [|by vm_compute]].
  - apply no_warning. by vm_compute.
  - vm_compute. repeat first [apply list_elem_of_here | apply list_elem_of_further].
Qed.

(** C6. Empty majors identity: when [A]'s key column has no values (as when
    [A] has no rows), the result is [B], every row unchanged. *)
Theorem empty_majors_identity
    (A : DataFrame) (ka : str) (B : DataFrame) (kb : str) :
  table A → table B → ka ∈ columns A → kb ∈ columns B →
  (∀ v, v ∉ key_values A ka) →
  ∃ R, both_return A ka B kb R ∧ R = B.
Proof.
  intros HA HB Hka Hkb Hempty. exists (anti_join A ka B kb).
  split; [by apply scripts_return|].
  unfold anti_join. rewrite filter_all by (intros r; apply Hempty).
  by destruct B.
Qed.

Lemma empty_majors_identity_witness :
  streamlit_result no_majors_run = Some attendees.
Proof.
  destruct (empty_majors_identity no_majors "id" attendees "id")
    as (R & [Hs _] & ->); [unfold table; compute_done..| |].
  - intros v Hv. by apply elem_of_nil in Hv.
  - exact (Hs no_majors_run eq_refl no_majors_run_pressed).
Defined.

(** C7. Duplicate semantics: repeated key values in [A] do not change the
    result (it is the result against [A] with the repeats dropped), and
    every row of [B] whose key is not in [A] occurs in the result as often
    as in [B]. *)
Theorem duplicate_semantics
    (A : DataFrame) (ka : str) (B : DataFrame) (kb : str) :
  table A → table B → ka ∈ columns A → kb ∈ columns B →
  ∃ R, both_return A ka B kb R
       ∧ both_return (drop_duplicates A ka) ka B kb R
       ∧ NoDup (key_values (drop_duplicates A ka) ka)
       ∧ (∀ v, v ∈ key_values (drop_duplicates A ka) ka ↔ v ∈ key_values A ka)
       ∧ (∀ r, at_label B kb r ∉ key_values A ka →
               occurrences r (rows R) = occurrences r (rows B))
       ∧ (∀ r, at_label B kb r ∈ key_values A ka → occurrences r (rows R) = 0).
Proof.
  intros HA HB Hka Hkb. exists (anti_join A ka B kb).
  destruct (drop_duplicates_keys A ka) as [Hnd Hsame].
  split; [by apply scripts_return|]. split.
  - rewrite <- (anti_join_same_keys (drop_duplicates A ka) A ka ka B kb Hsame).
    by apply scripts_return.
  - split; [done|]. split; [done|]. split.
    + intros r Hr. by apply occurrences_filter.
    + intros r Hr. unfold occurrences.
      destruct (filter _ (rows (anti_join A ka B kb))) as [|r' rs] eqn:Hf; [done|].
      assert (r' ∈ filter (λ r', r' = r) (rows (anti_join A ka B kb)))
        as [-> [_ Hnot]%rows_anti_join]%list_elem_of_filter
        by (rewrite Hf; apply list_elem_of_here).
      done.
Qed.

Lemma duplicate_semantics_witness :
  ∃ R, streamlit_result bbq_run = Some R
       ∧ key_values majors "id" = [Int 1; Int 2; Int 2; NaN]
       ∧ NoDup (key_values (drop_duplicates majors "id") "id")
       ∧ occurrences [Int 3; Str "Y"] (rows attendees) = 2
       ∧ occurrences [Int 3; Str "Y"] (rows R) = 2.
Proof.
  destruct (duplicate_semantics majors "id" attendees "id")
    as (R & [Hs _] & _ & Hnd & _ & Hkeep & _); [unfold table; compute_done..|].
  exists R. split; [exact (Hs bbq_run eq_refl bbq_run_pressed)|].
  split; [by vm_compute|]. split; [exact Hnd|]. split; [by vm_compute|].
  rewrite Hkeep; [by vm_compute|compute_done].
Defined.

(** C8. Normalization idempotence: cleaning a cleaned label gives the same
    label, for every string of code points; so loading leaves cleaned
    labels as they are. *)
Theorem clean_columns_idempotent :
  (∀ s, str.lower (str.strip (str.lower (str.strip s))) = str.lower (str.strip s))
  ∧ (∀ df, pd.clean_columns (pd.clean_columns df) = pd.clean_columns df).
Proof.
  split; [apply clean_label_idem|].
  intros [cols rs]. unfold pd.clean_columns. simpl. f_equal.
  rewrite <- !list_fmap_compose. apply list_fmap_ext.
  intros _ s _. apply clean_label_idem.
Qed.

(** C9. Order and row preservation: the result has the columns of [B], and
    its rows are a subsequence of the rows of [B]: the kept rows themselves,
    in the order they have in [B]. *)
Theorem result_is_subsequence
    (A : DataFrame) (ka : str) (B : DataFrame) (kb : str) :
  table A → table B → ka ∈ columns A → kb ∈ columns B →
  ∃ R, both_return A ka B kb R
       ∧ columns R = columns B
       ∧ rows R `sublist_of` rows B.
Proof.
  intros HA HB Hka Hkb. exists (anti_join A ka B kb).
  split; [by apply scripts_return|]. split; [done|].
  apply sublist_filter.
Qed.

Lemma result_is_subsequence_witness :
  ∃ R, streamlit_result bbq_run = Some R
       ∧ columns R = ["id"; "name"]
       ∧ rows R `sublist_of` rows attendees.
Proof.
  destruct (result_is_subsequence majors "id" attendees "id")
    as (R & [Hs _] & Hcols & Hsub); [unfold table; compute_done..|].
  exists R. split; [exact (Hs bbq_run eq_refl bbq_run_pressed)|].
  split; [by rewrite Hcols|exact Hsub].
Defined.

(** C10, as amended.  Validation is exact match against the cleaned
    labels: for a loaded table the check is membership of the requested
    name, as typed, among the cleaned labels; so a name with a character
    that [lower] changes (the capitals A to Z among them), or with white
    space at either end, fails it whatever the sheet's headers are. *)
Theorem validation_is_exact_match
    (uploaded_file : UploadedFile) (sheet : str) (df : DataFrame)
    (file_name required_column : str) :
  out (streamlit_app.load_excel_file uploaded_file sheet) = Ok (Some df) →
  existsb str.lower_changes required_column = true
  ∨ str.leading_space required_column = true
  ∨ str.trailing_space required_column = true →
  (required_column ∉ columns df)
  ∧ streamlit_app.validate_dataframe (Some df) file_name required_column
    = mkSt (Ok false) (missing_report df file_name required_column)
  ∧ (∀ name, out (streamlit_app.validate_dataframe (Some df) file_name name)
             = Ok (bool_decide (name ∈ columns df)))
  ∧ (∀ c, (65 ≤ c ≤ 90)%N → str.lower_changes c = true).
Proof.
  intros Hload Hbad.
  assert (∃ raw, df = pd.clean_columns raw) as [raw ->].
  { unfold streamlit_app.load_excel_file, read_excel in Hload.
    destruct (uploaded_file sheet) as [e|raw]; simpl in Hload; [done|].
    exists raw. congruence. }
  assert (Hnot : required_column ∉ columns (pd.clean_columns raw)).
  { simpl. rewrite <- list_fmap_compose. intros (h & -> & _)%list_elem_of_fmap.
    destruct (cleaned_label h) as (Hu & Hl & Ht). simpl in Hbad.
    destruct Hbad as [Hbad|[Hbad|Hbad]]; congruence. }
  split; [done|]. split; [by apply validate_absent|]. split.
  - intros name. unfold streamlit_app.validate_dataframe, pd.contains.
    by destruct (bool_decide (name ∈ columns (pd.clean_columns raw))).
  - apply ascii_capitals_change.
Qed.

Lemma validation_is_exact_match_witness :
  ("Bronco ID" ∉ columns (pd.clean_columns number_majors_sheet))
  ∧ out (streamlit_app.validate_dataframe
           (Some (pd.clean_columns number_majors_sheet)) "HRT Majors" "Bronco ID")
    = Ok false.
Proof.
  destruct (validation_is_exact_match (workbook number_majors_sheet) "Sheet1"
              (pd.clean_columns number_majors_sheet) "HRT Majors" "Bronco ID")
    as (Hnot & Hval & _); [reflexivity|by left|].
  split; [exact Hnot|by rewrite Hval].
Defined.

(** C10, as first stated, fails: the header [ℂ ID] is cleaned to [ℂ id],
    whose first character is upper case and has no lower-case form; the
    name [ℂ id] has an upper-case character and passes validation. *)
Lemma upper_case_name_passes_validation :
  str.has_upper "ℂ id" = true
  ∧ out (streamlit_app.load_excel_file (workbook double_struck_sheet) "Sheet1")
    = Ok (Some (mkDataFrame ["ℂ id"] [[Int 1]]))
  ∧ streamlit_app.validate_dataframe
      (Some (mkDataFrame ["ℂ id"] [[Int 1]])) "HRT Majors" "ℂ id"
    = mkSt (Ok true) [].
Proof. by vm_compute. Qed.

(** ** The specification's examples, run *)

Example streamlit_example :
  streamlit_result
    (streamlit_app.Widgets "id" "Sheet1" "Sheet1"
       (Some (workbook (mkDataFrame ["id"] [[Int 1]; [Int 2]])))
       (Some (workbook (mkDataFrame ["id"; "name"]
                          [[Int 1; Str "X"]; [Int 3; Str "Y"]])))
       true)
  = Some (mkDataFrame ["id"; "name"] [[Int 3; Str "Y"]]).
Proof. by vm_compute. Qed.

Example testing_example :
  testing_result numpy_type_name
    (testing_area_app.Widgets "Sheet1" "Sheet1"
       (Some (workbook (mkDataFrame ["id"] [])))
       (Some (workbook (mkDataFrame ["id"; "name"] [[Int 5; Str "Z"]])))
       None None true)
  = Some (mkDataFrame ["id"; "name"] [[Int 5; Str "Z"]]).
Proof. by vm_compute. Qed.

Example text_does_not_match_number :
  testing_result numpy_type_name mismatch_run
  = Some (mkDataFrame ["student id"] [[Str "123"]; [Str "7"]]).
Proof. by vm_compute. Qed.

Example capitalised_name_is_rejected :
  streamlit_app.main capitalised_run
  = mkSt (Ok (streamlit_app.Locals
                (Some (mkDataFrame ["bronco id"] [[Int 123]]))
                (Some (mkDataFrame ["bronco id"] [[Int 123]])) None))
      [st_success "Loaded 1 HRT majors";
       st_dataframe (mkDataFrame ["bronco id"] [[Int 123]]);
       st_write_list "**Columns:**" ["bronco id"];
       st_success "Loaded 1 BBQ attendees";
       st_dataframe (mkDataFrame ["bronco id"] [[Int 123]]);
       st_write_list "**Columns:**" ["bronco id"];
       st_error "'Bronco ID' column not found in HRT Majors";
       st_write_list "Available columns:" ["bronco id"];
       st_error "'Bronco ID' column not found in BBQ Attendees";
       st_write_list "Available columns:" ["bronco id"];
       st_markdown "Cannot Process"].
Proof. by vm_compute. Qed.

(** In the second script the same rejection sits in the processing section. *)
Lemma testing_missing_column_rejected A B a b button :
  a ≠ [] → b ≠ [] → a ∉ columns A ∨ b ∉ columns B →
  out (testing_area_app.process A B (Some a) (Some b) button) = Ok (None, None)
  ∧ (a ∉ columns A →
     st_error ("Column '" ++ a ++ "' not found in HRT Majors file")
     ∈ log (testing_area_app.process A B (Some a) (Some b) button))
  ∧ (b ∉ columns B →
     st_error ("Column '" ++ b ++ "' not found in BBQ Attendees file")
     ∈ log (testing_area_app.process A B (Some a) (Some b) button)).
Proof.
  intros Ha Hb Hmiss. unfold testing_area_app.process, pd.contains.
  rewrite (proj2 (truthy_Some a)), (proj2 (truthy_Some b)) by done.
  destruct (decide (a ∈ columns A)) as [HA|HA];
    destruct (decide (b ∈ columns B)) as [HB|HB]; [by destruct Hmiss|..];
    rewrite ?(bool_decide_eq_true_2 (a ∈ columns A)),
            ?(bool_decide_eq_false_2 (a ∈ columns A)),
            ?(bool_decide_eq_true_2 (b ∈ columns B)),
            ?(bool_decide_eq_false_2 (b ∈ columns B)) by done;
    st_step; (split; [done|]); split; intros ?; try done;
    rewrite !elem_of_app, !list_elem_of_singleton; tauto.
Qed.


(** X1. Cleaning a header only trims and lowers it: [strip] removes white
    space at the two ends and nothing else; [lower] never shortens the
    text and leaves no white space at its ends, so the cleaned label is
    empty exactly when the header is white space only. *)
Theorem cleaning_only_trims_and_lowers (s : str) :
  (∃ pre post,
     s = pre ++ str.strip s ++ post
     ∧ all_space pre = true ∧ all_space post = true)
  ∧ str.leading_space (str.strip s) = false
  ∧ str.trailing_space (str.strip s) = false
  ∧ length (str.strip s) ≤ length (str.lower (str.strip s))
  ∧ str.leading_space (str.lower (str.strip s)) = false
  ∧ str.trailing_space (str.lower (str.strip s)) = false
  ∧ (str.lower (str.strip s) = [] ↔ all_space s = true).
Proof.
  split; [|split; [apply leading_space_strip|split; [apply trailing_space_strip|]]].
  - destruct (lstrip_split s) as (pre & Hs & Hpre).
    destruct (rstrip_split (str.lstrip s)) as (post & Ht & Hpost).
    exists pre, post. unfold str.strip. by rewrite <- Ht.
  - split; [apply length_do_lower|].
    split; [apply leading_space_lower, leading_space_strip|].
    split; [apply trailing_space_lower, trailing_space_strip|].
    rewrite lower_nil. apply strip_nil.
Qed.

(** X2. Identifier detection looks for the two letters "id" only: a label is
    taken for an identifier column exactly when its lower-case form has
    "id" somewhere in it; the other three keywords add nothing. *)
Theorem id_like_iff (col : str) :
  testing_area_app.id_like col = true
  ↔ ∃ p q, str.lower col = p ++ "id" ++ q.
Proof.
  rewrite <- contains_spec. unfold testing_area_app.id_like, testing_area_app.keywords.
  cbn [existsb]. rewrite orb_false_r.
  assert (H1 : str.contains "id" "bronco id" = true) by reflexivity.
  assert (H2 : str.contains "id" "student id" = true) by reflexivity.
  assert (H3 : str.contains "id" "student_id" = true) by reflexivity.
  split.
  - intros H. repeat (apply orb_true_iff in H as [H|H]);
      eauto using contains_trans.
  - intros ->. by rewrite orb_true_r.
Qed.

Section selection_facts.
Import testing_area_app.

Lemma first_index_none test i cols :
  (∀ c, c ∈ cols → test c = false) → first_index test i cols = 0.
Proof.
  revert i. induction cols as [|c cols IH]; intros i Hall; simpl; [done|].
  rewrite (Hall c) by apply list_elem_of_here.
  apply IH. intros c' Hc'. apply Hall. by apply list_elem_of_further.
Qed.

Lemma first_index_shift test i cols c :
  c ∈ cols → test c = true →
  first_index test (S i) cols = S (first_index test i cols).
Proof.
  revert i. induction cols as [|c' cols IH]; intros i Hc Ht;
    [by apply elem_of_nil in Hc|].
  simpl. destruct (test c') eqn:Hc'; [done|].
  apply elem_of_cons in Hc as [->|Hc]; [congruence|]. by apply IH.
Qed.

(** The loop stops at the first option that passes the test. *)
Lemma first_index_found test cols c :
  c ∈ cols → test c = true →
  ∃ i k, first_index test 0 cols = i ∧ cols !! i = Some k ∧ test k = true
         ∧ ∀ j k', j < i → cols !! j = Some k' → test k' = false.
Proof.
  induction cols as [|c' cols IH]; intros Hc Ht; [by apply elem_of_nil in Hc|].
  simpl. destruct (test c') eqn:Hc'.
  - exists 0, c'. repeat split; [done|]. intros j k' Hj. lia.
  - apply elem_of_cons in Hc as [->|Hc]; [congruence|].
    destruct (IH Hc Ht) as (i & k & Hi & Hk & Htk & Hmin).
    exists (S i), k. rewrite (first_index_shift test 0 cols c Hc Ht), Hi.
    repeat split; [done..|].
    intros [|j] k' Hj Hk'; simpl in Hk'; [congruence|]. apply (Hmin j); [lia|done].
Qed.

Lemma first_index_unique test cols i k :
  cols !! i = Some k → test k = true →
  (∀ j k', j < i → cols !! j = Some k' → test k' = false) →
  first_index test 0 cols = i.
Proof.
  intros Hk Ht Hmin.
  destruct (first_index_found test cols k) as (i' & k' & <- & Hk' & Ht' & Hmin');
    [by eapply list_elem_of_lookup_2|done|].
  destruct (Nat.lt_trichotomy (first_index test 0 cols) i) as [Hlt|[Heq|Hgt]];
    [|done|].
  - rewrite (Hmin _ _ Hlt Hk') in Ht'. done.
  - rewrite (Hmin' _ _ Hgt Hk) in Ht. done.
Qed.

Lemma some_or_none (test : str → bool) (cols : list str) :
  (∃ c, c ∈ cols ∧ test c = true) ∨ (∀ c, c ∈ cols → test c = false).
Proof.
  induction cols as [|c cols [(c' & Hc' & Ht)|Hno]].
  - right. intros c Hc. by apply elem_of_nil in Hc.
  - left. exists c'. split; [by apply list_elem_of_further|done].
  - destruct (test c) eqn:Hc.
    + left. exists c. split; [apply list_elem_of_here|done].
    + right. intros c' [->|Hc']%elem_of_cons; auto.
Qed.

Lemma id_like_lower a b : str.lower a = str.lower b → id_like a = id_like b.
Proof. unfold id_like. by intros ->. Qed.

End selection_facts.

(** X3. The majors' select box: a pick is the label at the picked
    position; untouched, the box stands on the first label that has "id"
    in it and, when no label has, on the first label; it shows nothing
    only when the sheet has no columns. *)
Theorem majors_box_default (A : DataFrame) :
  (∀ j, testing_area_app.hrt_choice A (Some j) = columns A !! j)
  ∧ (testing_area_app.hrt_choice A None = None ↔ columns A = [])
  ∧ ((∀ c, c ∈ columns A → testing_area_app.id_like c = false) →
     testing_area_app.hrt_choice A None = head (columns A))
  ∧ (∀ c, c ∈ columns A → testing_area_app.id_like c = true →
       ∃ i k, columns A !! i = Some k
              ∧ testing_area_app.hrt_choice A None = Some k
              ∧ testing_area_app.id_like k = true
              ∧ ∀ j k', j < i → columns A !! j = Some k' →
                        testing_area_app.id_like k' = false).
Proof.
  unfold testing_area_app.hrt_choice, testing_area_app.selectbox. simpl.
  split; [done|]. split; [|split].
  - split; [|by intros ->].
    destruct (some_or_none testing_area_app.id_like (columns A))
      as [(c & Hc & Ht)|Hno].
    + destruct (first_index_found _ _ c Hc Ht) as (i & k & -> & Hk & _). congruence.
    + rewrite first_index_none by done. by destruct (columns A).
  - intros Hno. rewrite first_index_none by done. by rewrite head_lookup.
  - intros c Hc Ht.
    destruct (first_index_found _ _ c Hc Ht) as (i & k & -> & Hk & Htk & Hmin).
    eauto 10.
Qed.

Lemma majors_box_default_witness :
  testing_area_app.hrt_choice (mkDataFrame ["name"; "email"] []) None = Some "name"
  ∧ ∃ i k, columns (mkDataFrame ["name"; "email"; "bronco id"] []) !! i = Some k
           ∧ testing_area_app.hrt_choice
               (mkDataFrame ["name"; "email"; "bronco id"] []) None = Some k
           ∧ testing_area_app.id_like k = true
           ∧ ∀ j k', j < i →
                columns (mkDataFrame ["name"; "email"; "bronco id"] []) !! j = Some k' →
                testing_area_app.id_like k' = false.
Proof.
  split.
  - apply (proj1 (proj2 (proj2 (majors_box_default
                                  (mkDataFrame ["name"; "email"] []))))).
    intros c Hc. repeat (apply elem_of_cons in Hc as [->|Hc]); [done..|].
    by apply elem_of_nil in Hc.
  - apply (proj2 (proj2 (proj2 (majors_box_default
                                  (mkDataFrame ["name"; "email"; "bronco id"] []))))
             "bronco id"); [compute_done|reflexivity].
Defined.

(** X4. Two sheets with the same headers: left untouched, the attendees'
    select box stands on the very label the majors' box stands on. *)
Theorem same_headers_same_default (A B : DataFrame) :
  columns B = columns A →
  testing_area_app.bbq_choice B (testing_area_app.hrt_choice A None) None
  = testing_area_app.hrt_choice A None.
Proof.
  intros Hcols.
  unfold testing_area_app.bbq_choice, testing_area_app.hrt_choice,
    testing_area_app.selectbox. simpl. rewrite Hcols.
  set (cols := columns A).
  destruct (some_or_none testing_area_app.id_like cols) as [(c & Hc & Ht)|Hno].
  - destruct (first_index_found _ _ c Hc Ht) as (i & k & -> & Hk & Htk & Hmin).
    rewrite Hk. simpl.
    assert (str.truthy k = true) as ->.
    { destruct k; [discriminate Htk|done]. }
    rewrite (first_index_unique _ cols i k Hk); [exact Hk|..].
    + by rewrite bool_decide_eq_true_2.
    + intros j k' Hj Hk'. rewrite (Hmin j k' Hj Hk'), orb_false_r.
      apply bool_decide_eq_false_2. intros Heq.
      pose proof (Hmin j k' Hj Hk') as Hf.
      rewrite (id_like_lower _ _ Heq) in Hf. congruence.
  - rewrite (first_index_none testing_area_app.id_like) by done.
    destruct cols as [|c0 rest]; [done|]. simpl.
    destruct (str.truthy c0); [|done]. simpl.
    by rewrite bool_decide_eq_true_2.
Qed.

Lemma same_headers_same_default_witness :
  testing_area_app.bbq_choice (mkDataFrame ["name"; "bronco id"] [[Str "X"; Int 1]])
    (testing_area_app.hrt_choice (mkDataFrame ["name"; "bronco id"] []) None) None
  = testing_area_app.hrt_choice (mkDataFrame ["name"; "bronco id"] []) None.
Proof.
  apply (same_headers_same_default (mkDataFrame ["name"; "bronco id"] [])
           (mkDataFrame ["name"; "bronco id"] [[Str "X"; Int 1]])).
  reflexivity.
Defined.

(** ** More about [streamlit_app.py] *)

Ltac in_log :=
  rewrite ?elem_of_app, ?elem_of_cons, ?elem_of_nil.

Section streamlit_app_more.
Import streamlit_app.

Lemma upload_cases file sheet what :
  (∃ df, loads file sheet df
         ∧ upload file sheet what
           = mkSt (Ok (Some df))
               [st_success ("Loaded " ++ str.format (pd.len df) ++ " " ++ what);
                st_dataframe (head_rows 5 df);
                st_write_list "**Columns:**" (columns df)])
  ∨ ((∀ df, ¬ loads file sheet df)
     ∧ upload file sheet what = mkSt (Ok None) (load_failure file sheet)).
Proof.
  destruct file as [f|].
  - destruct (f sheet) as [e|raw] eqn:Hf.
    + right. split.
      * intros df (f' & raw & [= <-] & Hf' & _). congruence.
      * unfold upload, load_excel_file, read_excel, load_failure. by rewrite Hf.
    + left. exists (pd.clean_columns raw).
      assert (loads (Some f) sheet (pd.clean_columns raw)) by (by exists f, raw).
      split; [done|]. by apply upload_loads.
  - right. split; [|done]. by intros df (f & raw & [=] & _).
Qed.

Lemma upload_failed file sheet what f e :
  file = Some f → f sheet = inl e →
  upload file sheet what
  = mkSt (Ok None) [st_error ("Error loading file: " ++ str_of e)].
Proof.
  intros -> Hf. unfold upload, load_excel_file, read_excel. by rewrite Hf.
Qed.

(** An uploader draws reports and previews, never a box or a download. *)
Lemma upload_calm file sheet what c :
  c ∈ log (upload file sheet what) →
  match c with st_markdown _ | st_download_button _ _ => False | _ => True end.
Proof.
  destruct (upload_cases file sheet what) as [(df & _ & ->)|[_ ->]].
  - simpl. in_log. intuition (by subst).
  - unfold load_failure. simpl. repeat case_match; in_log; intuition (by subst).
Qed.

Lemma process_log A B c :
  table A → table B → c ∈ columns A → c ∈ columns B →
  process A B c true
  = mkSt (Ok (Some (anti_join A c B c)))
      (summary_lines A B (anti_join A c B c) ++ result_view (anti_join A c B c)).
Proof.
  intros HA HB HcA HcB.
  destruct (non_hrt_expr A c B c HA HB HcA HcB) as (keys & majors & Hk & Hm & Hr & _).
  unfold process. rewrite (validate_present A), (validate_present B) by done.
  st_step. unfold filter_and_report. rewrite Hk, Hm. st_step. rewrite Hr. st_step.
  unfold result_view. by case_bool_decide.
Qed.

Lemma pressed_log w A B k :
  table A → table B → k ∈ columns A → k ∈ columns B →
  streamlit_pressed w A B k →
  log (main w)
  = log (upload (hrt_file w) (hrt_sheet w) "HRT majors")
    ++ log (upload (bbq_file w) (bbq_sheet w) "BBQ attendees")
    ++ summary_lines A B (anti_join A k B k) ++ result_view (anti_join A k B k).
Proof.
  intros HA HB HkA HkB (HlA & HlB & Hk & Hbtn).
  destruct (main_loaded w A B HlA HlB) as [_ Hlog].
  by rewrite Hk, Hbtn, process_log in Hlog.
Qed.

End streamlit_app_more.

(** X5. Without both frames [streamlit_app.py] goes no further than the
    uploaders: when a file is missing or cannot be read the script ends
    normally, validates nothing, shows no result and no "Cannot Process"
    box (the fixed headings and help boxes, which the log leaves out, are
    drawn as ever), and a file that cannot be read leaves the loader's
    error with the text of the exception. *)
Theorem stops_without_both_frames (w : streamlit_app.widgets) :
  (∀ df, ¬ loads (streamlit_app.hrt_file w) (streamlit_app.hrt_sheet w) df)
  ∨ (∀ df, ¬ loads (streamlit_app.bbq_file w) (streamlit_app.bbq_sheet w) df) →
  (∃ hrt_df bbq_df,
     out (streamlit_app.main w) = Ok (streamlit_app.Locals hrt_df bbq_df None))
  ∧ log (streamlit_app.main w)
    = log (streamlit_app.upload (streamlit_app.hrt_file w)
             (streamlit_app.hrt_sheet w) "HRT majors")
      ++ log (streamlit_app.upload (streamlit_app.bbq_file w)
                (streamlit_app.bbq_sheet w) "BBQ attendees")
  ∧ (∀ f e, streamlit_app.hrt_file w = Some f →
            f (streamlit_app.hrt_sheet w) = inl e →
            st_error ("Error loading file: " ++ str_of e)
            ∈ log (streamlit_app.main w))
  ∧ (∀ f e, streamlit_app.bbq_file w = Some f →
            f (streamlit_app.bbq_sheet w) = inl e →
            st_error ("Error loading file: " ++ str_of e)
            ∈ log (streamlit_app.main w))
  ∧ (∀ body, st_markdown body ∉ log (streamlit_app.main w))
  ∧ (∀ file_name data, st_download_button file_name data ∉ log (streamlit_app.main w)).
Proof.
  intros Hmiss.
  assert (Hmain :
    (∃ hrt_df bbq_df,
       out (streamlit_app.main w) = Ok (streamlit_app.Locals hrt_df bbq_df None))
    ∧ log (streamlit_app.main w)
      = log (streamlit_app.upload (streamlit_app.hrt_file w)
               (streamlit_app.hrt_sheet w) "HRT majors")
        ++ log (streamlit_app.upload (streamlit_app.bbq_file w)
                  (streamlit_app.bbq_sheet w) "BBQ attendees")).
  { unfold streamlit_app.main.
    destruct (upload_cases (streamlit_app.hrt_file w) (streamlit_app.hrt_sheet w)
                "HRT majors") as [(A & HlA & HuA)|[HnA HuA]];
      destruct (upload_cases (streamlit_app.bbq_file w) (streamlit_app.bbq_sheet w)
                  "BBQ attendees") as [(B & HlB & HuB)|[HnB HuB]];
      [destruct Hmiss as [H|H]; [by destruct (H A)|by destruct (H B)]|..];
      rewrite HuA, HuB; st_step; rewrite ?app_nil_r; (split; [by eexists _, _|done]). }
  destruct Hmain as [Hout Hlog]. split; [done|]. split; [done|]. rewrite Hlog.
  split; [|split; [|split]].
  - intros f e Hf He. rewrite (upload_failed _ _ _ f e Hf He).
    apply elem_of_app. left. apply list_elem_of_here.
  - intros f e Hf He. rewrite (upload_failed _ _ _ f e Hf He).
    apply elem_of_app. right. apply list_elem_of_here.
  - intros body Hin. apply elem_of_app in Hin as [Hin|Hin];
      by apply upload_calm in Hin.
  - intros file_name data Hin. apply elem_of_app in Hin as [Hin|Hin];
      by apply upload_calm in Hin.
Qed.

Lemma stops_without_both_frames_witness :
  streamlit_result broken_run = None
  ∧ st_error "Error loading file: File is not a zip file"
    ∈ log (streamlit_app.main broken_run).
Proof.
  destruct (stops_without_both_frames broken_run)
    as ((h & b & Hout) & _ & Herr & _).
  - left. intros df (f & raw & [= <-] & Hf & _). discriminate Hf.
  - split.
    + unfold streamlit_result. by rewrite Hout.
    + exact (Herr unreadable (Exn OtherError "File is not a zip file")
               eq_refl eq_refl).
Defined.

(** X6. Nothing is computed before the button is pressed: with both frames
    loaded and the comparison column in both, a run without the button
    ends with no result and shows the two upload reports only. *)
Theorem nothing_until_pressed (w : streamlit_app.widgets) (A B : DataFrame) :
  loads (streamlit_app.hrt_file w) (streamlit_app.hrt_sheet w) A →
  loads (streamlit_app.bbq_file w) (streamlit_app.bbq_sheet w) B →
  streamlit_app.comparison_column w ∈ columns A →
  streamlit_app.comparison_column w ∈ columns B →
  streamlit_app.filter_button w = false →
  out (streamlit_app.main w) = Ok (streamlit_app.Locals (Some A) (Some B) None)
  ∧ log (streamlit_app.main w)
    = log (streamlit_app.upload (streamlit_app.hrt_file w)
             (streamlit_app.hrt_sheet w) "HRT majors")
      ++ log (streamlit_app.upload (streamlit_app.bbq_file w)
                (streamlit_app.bbq_sheet w) "BBQ attendees").
Proof.
  intros HlA HlB HcA HcB Hbtn.
  destruct (main_loaded w A B HlA HlB) as [Hout Hlog].
  rewrite Hbtn, process_idle in Hout, Hlog by done. simpl in Hout, Hlog.
  by rewrite app_nil_r in Hlog.
Qed.

Lemma nothing_until_pressed_witness :
  out (streamlit_app.main idle_run)
  = Ok (streamlit_app.Locals (Some majors) (Some attendees) None).
Proof.
  apply (nothing_until_pressed idle_run majors attendees);
    first [apply workbook_loads | compute_done].
Defined.

(** X7. The download carries the result: in a pressed run on valid tables
    the download button is offered exactly when the result has a row, and
    then under the file name "Non_HRT_BBQ_Attendees.xlsx" with one sheet
    "Non_HRT_Attendees" holding exactly the result; otherwise the script
    says that all attendees are majors. *)
Theorem download_carries_the_result
    (w : streamlit_app.widgets) (A B : DataFrame) (k : str) :
  table A → table B → k ∈ columns A → k ∈ columns B →
  streamlit_pressed w A B k →
  (∀ file_name data,
     st_download_button file_name data ∈ log (streamlit_app.main w)
     ↔ rows (anti_join A k B k) ≠ []
       ∧ file_name = "Non_HRT_BBQ_Attendees.xlsx"
       ∧ data = streamlit_app.create_download_link (anti_join A k B k) file_name
       ∧ data = Xlsx "Non_HRT_Attendees" (anti_join A k B k))
  ∧ (st_info "All BBQ attendees are HRT majors!" ∈ log (streamlit_app.main w)
     ↔ rows (anti_join A k B k) = []).
Proof.
  intros HA HB HkA HkB Hw.
  rewrite (pressed_log w A B k HA HB HkA HkB Hw).
  destruct Hw as (HlA & HlB & _ & _).
  rewrite (upload_loads _ _ _ _ HlA), (upload_loads _ _ _ _ HlB).
  unfold summary_lines, majors_at_bbq_line, result_view, pd.len. simpl log.
  destruct (rows (anti_join A k B k)) as [|r rs] eqn:HR.
  - rewrite bool_decide_eq_false_2 by (simpl; lia).
    split; [intros file_name data|]; in_log; intuition (try discriminate; auto).
  - rewrite bool_decide_eq_true_2 by (simpl; lia).
    split; [intros file_name data|]; in_log; unfold streamlit_app.create_download_link.
    + split.
      * intros H. repeat (destruct H as [H|H]; try discriminate H); try done.
        by injection H as -> ->.
      * intros (_ & -> & _ & ->). tauto.
    + intuition discriminate.
Qed.

Lemma download_carries_the_result_witness :
  st_download_button "Non_HRT_BBQ_Attendees.xlsx"
    (Xlsx "Non_HRT_Attendees"
       (mkDataFrame ["id"; "name"] [[Int 3; Str "Y"]; [Int 3; Str "Y"]]))
  ∈ log (streamlit_app.main bbq_run).
Proof.
  apply (proj1 (download_carries_the_result bbq_run majors attendees "id"
                  ltac:(unfold table; compute_done) ltac:(unfold table; compute_done)
                  ltac:(compute_done) ltac:(compute_done) bbq_run_pressed)).
  by vm_compute.
Defined.

Lemma filter_id_on (P : row → Prop) `{!∀ r, Decision (P r)} (rs : list row) :
  (∀ r, r ∈ rs → P r) → filter P rs = rs.
Proof.
  induction rs as [|r rs IH]; intros HP; [done|].
  rewrite filter_cons, decide_True by (apply HP, list_elem_of_here).
  rewrite IH; [done|]. intros r' Hr'. by apply HP, list_elem_of_further.
Qed.

Lemma filter_none_on (P : row → Prop) `{!∀ r, Decision (P r)} (rs : list row) :
  (∀ r, r ∈ rs → ¬ P r) → filter P rs = [].
Proof.
  induction rs as [|r rs IH]; intros HP; [done|].
  rewrite filter_cons, decide_False by (apply HP, list_elem_of_here).
  apply IH. intros r' Hr'. by apply HP, list_elem_of_further.
Qed.

(** X8. An attendee sheet with no rows: a pressed run returns it as it is,
    counts no majors at the event, offers no download and says that all
    attendees are majors. *)
Theorem empty_attendees_reported_as_all_majors
    (w : streamlit_app.widgets) (A B : DataFrame) (k : str) :
  table A → table B → k ∈ columns A → k ∈ columns B →
  streamlit_pressed w A B k →
  rows B = [] →
  streamlit_result w = Some B
  ∧ st_info "All BBQ attendees are HRT majors!" ∈ log (streamlit_app.main w)
  ∧ st_write "- **HRT Majors at BBQ:** 0" ∈ log (streamlit_app.main w)
  ∧ st_write "- **Non-HRT Attendees:** 0" ∈ log (streamlit_app.main w).
Proof.
  intros HA HB HkA HkB Hw Hempty.
  assert (HR : anti_join A k B k = B).
  { unfold anti_join. rewrite Hempty. destruct B; simpl in *. by subst. }
  destruct (streamlit_returns w A B k HA HB HkA HkB Hw) as [Hres _].
  rewrite HR in Hres. split; [done|].
  rewrite (pressed_log w A B k HA HB HkA HkB Hw), HR.
  unfold summary_lines, majors_at_bbq_line, result_view, pd.len.
  rewrite Hempty. simpl. in_log. tauto.
Qed.

Lemma empty_attendees_reported_as_all_majors_witness :
  streamlit_result no_attendees_run = Some no_attendees
  ∧ st_info "All BBQ attendees are HRT majors!"
    ∈ log (streamlit_app.main no_attendees_run).
Proof.
  destruct (empty_attendees_reported_as_all_majors no_attendees_run
              majors no_attendees "id") as (Hres & Hinfo & _);
    [unfold table; compute_done..| |reflexivity|by split].
  split; [apply workbook_loads|]. split; [apply (workbook_loads no_attendees)|done].
Defined.

(** X9. A pressed run of [streamlit_app.py] on valid tables shows no error
    message at all. *)
Theorem valid_run_shows_no_error
    (w : streamlit_app.widgets) (A B : DataFrame) (k : str) :
  table A → table B → k ∈ columns A → k ∈ columns B →
  streamlit_pressed w A B k →
  ∀ body, st_error body ∉ log (streamlit_app.main w).
Proof.
  intros HA HB HkA HkB Hw body.
  rewrite (pressed_log w A B k HA HB HkA HkB Hw).
  destruct Hw as (HlA & HlB & _ & _).
  rewrite (upload_loads _ _ _ _ HlA), (upload_loads _ _ _ _ HlB).
  unfold summary_lines, majors_at_bbq_line, result_view. simpl log.
  case_bool_decide; in_log; intuition discriminate.
Qed.

Lemma valid_run_shows_no_error_witness :
  st_error "Error loading file: sheet" ∉ log (streamlit_app.main bbq_run).
Proof.
  apply (valid_run_shows_no_error bbq_run majors attendees "id");
    first [apply bbq_run_pressed | unfold table; compute_done].
Defined.

(** X10. When both files load as tables (no cleaned label twice in a
    sheet), [testing_area_app.py] ends normally and never shows an error,
    whatever is picked and whether or not the button is pressed: its
    column-not-found checks cannot fire, because the select boxes offer
    the labels of the loaded frames only. *)
Theorem testing_run_shows_no_error
    (type_name : Series → scalar → str) (w : testing_area_app.widgets)
    (A B : DataFrame) :
  loads (testing_area_app.hrt_file w) (testing_area_app.hrt_sheet w) A →
  loads (testing_area_app.bbq_file w) (testing_area_app.bbq_sheet w) B →
  table A → table B →
  (∃ L, out (testing_area_app.main type_name w) = Ok L)
  ∧ ∀ body, st_error body ∉ log (testing_area_app.main type_name w).
Proof.
  intros HlA HlB HA HB.
  destruct (testing_main_run type_name w A B HlA HlB HA HB)
    as (r & s & l & -> & Hq & _).
  split; [by eexists|]. intros body. by apply quiet_error.
Qed.

Lemma testing_run_shows_no_error_witness :
  (∃ L, out (testing_area_app.main numpy_type_name mismatch_run) = Ok L)
  ∧ st_error "Error loading file: sheet"
    ∉ log (testing_area_app.main numpy_type_name mismatch_run).
Proof.
  refine ((λ H, conj (proj1 H) (proj2 H "Error loading file: sheet")) _).
  apply (testing_run_shows_no_error numpy_type_name mismatch_run
           (pd.clean_columns number_majors_sheet)
           (pd.clean_columns text_attendees_sheet));
    first [apply workbook_loads | unfold table; compute_done].
Defined.

(** X11. In [testing_area_app.py] the result and [hrt_at_bbq] split the
    attendees: together they hold the rows of the attendee frame, each as
    often as there (a permutation), and no row is in both. *)
Theorem result_and_complement_split_the_attendees
    (type_name : Series → scalar → str) (w : testing_area_app.widgets)
    (A : DataFrame) (ka : str) (B : DataFrame) (kb : str) :
  table A → table B → ka ≠ [] → kb ≠ [] →
  testing_pressed w A ka B kb →
  ∃ R C, testing_result type_name w = Some R
         ∧ testing_complement type_name w = Some C
         ∧ rows R ++ rows C ≡ₚ rows B
         ∧ (∀ r, r ∈ rows R → r ∉ rows C)
         ∧ columns R = columns B ∧ columns C = columns B.
Proof.
  intros HA HB Hna Hnb Hw.
  destruct (testing_returns type_name w A ka B kb HA HB Hna Hnb Hw)
    as (HR & HC & _).
  exists (anti_join A ka B kb), (semi_join A ka B kb).
  split; [done|]. split; [done|]. split; [|split; [|done]].
  - unfold anti_join, semi_join. simpl.
    rewrite (list_filter_iff (λ r, at_label B kb r ∈ key_values A ka)
               (λ r, ¬ (at_label B kb r ∉ key_values A ka))).
    + apply filter_app_complement.
    + intros r. split; [tauto|apply dec_stable].
  - intros r [_ Hnot]%rows_anti_join. unfold semi_join. simpl.
    rewrite list_elem_of_filter. tauto.
Qed.

Lemma result_and_complement_split_the_attendees_witness :
  ∃ R C, testing_result numpy_type_name bbq_test_run = Some R
         ∧ testing_complement numpy_type_name bbq_test_run = Some C
         ∧ rows R ++ rows C ≡ₚ rows attendees.
Proof.
  destruct (result_and_complement_split_the_attendees numpy_type_name bbq_test_run
              majors "id" attendees "id")
    as (R & C & HR & HC & Hperm & _);
    [unfold table; compute_done..|done|done|apply bbq_test_run_pressed|].
  by exists R, C.
Defined.

(** X12. Filtering is idempotent: uploading the returned frame as the
    attendee file and pressing again returns it unchanged, and no row of
    it has a key among the majors'. *)
Theorem filtering_the_result_again_changes_nothing
    (A : DataFrame) (ka : str) (B : DataFrame) (kb : str) :
  table A → table B → ka ∈ columns A → kb ∈ columns B →
  ∃ R, both_return A ka B kb R
       ∧ both_return A ka R kb R
       ∧ rows (semi_join A ka R kb) = [].
Proof.
  intros HA HB Hka Hkb. exists (anti_join A ka B kb).
  assert (Hagain :
    anti_join A ka (anti_join A ka B kb) kb = anti_join A ka B kb).
  { unfold anti_join at 1.
    change (at_label (anti_join A ka B kb) kb) with (at_label B kb).
    rewrite filter_id_on; [reflexivity|].
    intros r [_ Hr]%rows_anti_join. done. }
  split; [by apply scripts_return|]. split.
  - pose proof (scripts_return A ka (anti_join A ka B kb) kb HA HB Hka Hkb) as H.
    by rewrite Hagain in H.
  - unfold semi_join. simpl.
    change (at_label (anti_join A ka B kb) kb) with (at_label B kb).
    apply filter_none_on. intros r [_ Hr]%rows_anti_join. done.
Qed.

Lemma filtering_the_result_again_changes_nothing_witness :
  ∃ R, both_return majors "id" attendees "id" R
       ∧ both_return majors "id" R "id" R
       ∧ rows (semi_join majors "id" R "id") = [].
Proof.
  apply (filtering_the_result_again_changes_nothing majors "id" attendees "id");
    unfold table; compute_done.
Defined.

(** ** More about [testing_area_app.py] *)

Section testing_area_app_more.
Import testing_area_app.

Variable type_name : Series → scalar → str.

(** With both frames loaded, the script is the two upload reports, the
    column selection and then the processing section. *)
Lemma testing_main_split w A B :
  loads (hrt_file w) (hrt_sheet w) A →
  loads (bbq_file w) (bbq_sheet w) B →
  table A → table B →
  let ka := hrt_choice A (hrt_column_select w) in
  let kb := bbq_choice B ka (bbq_column_select w) in
  ∃ l0,
    out (main type_name w)
    = match out (process A B ka kb (filter_button w)) with
      | Ok (r, s) => Ok (Locals (Some A) (Some B) ka kb r s)
      | Raise e => Raise e
      | OutOfModel => OutOfModel
      end
    ∧ log (main type_name w) = l0 ++ log (process A B ka kb (filter_button w)).
Proof.
  intros HlA HlB HA HB ka kb. unfold main.
  rewrite (testing_upload_loads _ _ _ _ HlA), (testing_upload_loads _ _ _ _ HlB).
  st_step.
  destruct (column_selection_table type_name A B (hrt_column_select w)
              (bbq_column_select w) HA HB) as (lc & -> & _).
  fold ka kb. st_step.
  destruct (process A B ka kb (filter_button w)) as [[[r s]|e|] lp]; st_step;
    match goal with
    | |- ∃ l0, _ ∧ ?u1 ++ ?u2 ++ lc ++ _ = _ => exists (u1 ++ u2 ++ lc)
    end;
    (split; [reflexivity|]); rewrite ?app_nil_r, !app_assoc; reflexivity.
Qed.

Lemma testing_process_pressed A B a b :
  table A → table B → a ∈ columns A → b ∈ columns B →
  a ≠ [] → b ≠ [] →
  process A B (Some a) (Some b) true = filter_and_report A B a b.
Proof.
  intros HA HB Ha Hb Hna Hnb.
  destruct (testing_filter_and_report_table A B a b HA HB Ha Hb) as (l & Hl & _).
  unfold process, pd.contains.
  rewrite (proj2 (truthy_Some a)), (proj2 (truthy_Some b)) by done.
  rewrite !bool_decide_eq_true_2 by done. st_step. by rewrite Hl.
Qed.

End testing_area_app_more.

(** X13. An empty label is no selection: when both files load as tables
    (no cleaned label twice in a sheet) and a select box of
    [testing_area_app.py] stands on a column whose cleaned label is empty
    (or shows nothing), the script asks for a column selection and binds
    no result, even with the button pressed. *)
Theorem empty_label_is_no_selection
    (type_name : Series → scalar → str) (w : testing_area_app.widgets)
    (A B : DataFrame) :
  loads (testing_area_app.hrt_file w) (testing_area_app.hrt_sheet w) A →
  loads (testing_area_app.bbq_file w) (testing_area_app.bbq_sheet w) B →
  table A → table B →
  testing_area_app.truthy
    (testing_area_app.hrt_choice A (testing_area_app.hrt_column_select w))
  && testing_area_app.truthy
       (testing_area_app.bbq_choice B
          (testing_area_app.hrt_choice A (testing_area_app.hrt_column_select w))
          (testing_area_app.bbq_column_select w)) = false →
  testing_result type_name w = None
  ∧ testing_complement type_name w = None
  ∧ st_markdown "Column Selection Required"
    ∈ log (testing_area_app.main type_name w).
Proof.
  intros HlA HlB HA HB Hfalsy.
  destruct (testing_main_split type_name w A B HlA HlB HA HB) as (l0 & Hout & Hlog).
  unfold testing_area_app.process in Hout, Hlog. rewrite Hfalsy in Hout, Hlog.
  simpl in Hout, Hlog.
  unfold testing_result, testing_complement. rewrite Hout, Hlog. simpl.
  split; [done|]. split; [done|]. in_log. tauto.
Qed.

Lemma empty_label_is_no_selection_witness :
  testing_area_app.hrt_choice (pd.clean_columns blank_header_sheet) None
  = Some []
  ∧ testing_result numpy_type_name blank_header_run = None
  ∧ st_markdown "Column Selection Required"
    ∈ log (testing_area_app.main numpy_type_name blank_header_run).
Proof.
  split; [reflexivity|].
  destruct (empty_label_is_no_selection numpy_type_name blank_header_run
              (pd.clean_columns blank_header_sheet) attendees)
    as (Hres & _ & Hbox);
    [apply workbook_loads|apply workbook_loads|unfold table; compute_done
    |unfold table; compute_done|reflexivity|].
  by split.
Defined.

(** X14. The data type validation gives one verdict or none: on key
    columns that both have a non-empty cell it logs exactly one message,
    the warning when the type names of the first non-empty cells differ and
    the success message when they agree; when either column has only empty
    cells it logs nothing.  It never stops the script. *)
Theorem type_check_verdict
    (type_name : Series → scalar → str)
    (A : DataFrame) (ka : str) (B : DataFrame) (kb : str) :
  table A → table B → ka ∈ columns A → kb ∈ columns B →
  out (testing_area_app.type_check type_name A B ka kb) = Ok ()
  ∧ (pd.dropna (key_values A ka) = [] ∨ pd.dropna (key_values B kb) = [] →
     log (testing_area_app.type_check type_name A B ka kb) = [])
  ∧ (∀ hrt_sample bbq_sample,
       head (pd.dropna (key_values A ka)) = Some hrt_sample →
       head (pd.dropna (key_values B kb)) = Some bbq_sample →
       let hrt_type := type_name (key_values A ka) hrt_sample in
       let bbq_type := type_name (key_values B kb) bbq_sample in
       log (testing_area_app.type_check type_name A B ka kb)
       = [if bool_decide (hrt_type = bbq_type)
          then st_success ("**Data Types Match:** Both columns contain "
                           ++ hrt_type ++ " values.")
          else mismatch_warning hrt_type bbq_type]).
Proof.
  intros HA HB Hka Hkb. rewrite (type_check_table type_name A B ka kb HA HB Hka Hkb).
  unfold type_report. split; [done|]. split.
  - intros [-> | ->]; simpl; [done|]. by destruct (head _).
  - intros h b -> ->. simpl.
    destruct (decide (type_name (key_values A ka) h = type_name (key_values B kb) b)).
    + by rewrite bool_decide_eq_false_2, bool_decide_eq_true_2 by tauto.
    + by rewrite bool_decide_eq_true_2, bool_decide_eq_false_2 by done.
Qed.

Lemma type_check_verdict_witness :
  log (testing_area_app.type_check numpy_type_name
         (mkDataFrame ["id"] [[NaN]; [NaN]]) (mkDataFrame ["id"] [[Str "7"]])
         "id" "id") = []
  ∧ log (testing_area_app.type_check numpy_type_name majors attendees "id" "id")
    = [st_success "**Data Types Match:** Both columns contain float64 values."].
Proof.
  destruct (type_check_verdict numpy_type_name
              (mkDataFrame ["id"] [[NaN]; [NaN]]) "id"
              (mkDataFrame ["id"] [[Str "7"]]) "id")
    as (_ & Hnone & _); [unfold table; compute_done..|].
  destruct (type_check_verdict numpy_type_name majors "id" attendees "id")
    as (_ & _ & Hone); [unfold table; compute_done..|].
  split.
  - apply Hnone. left. by vm_compute.
  - rewrite (Hone (Int 1) (Int 1)) by (by vm_compute). by vm_compute.
Defined.

(** X15. The sample values under a select box are the first non-empty
    cells of the chosen column, three at most, in sheet order; an empty
    label shows none. *)
Theorem samples_are_three_nonempty_values (df : DataFrame) (c : str) :
  table df → c ∈ columns df → c ≠ [] →
  ∃ items,
    testing_area_app.show_samples df (Some c)
    = mkSt (Ok ()) [st_write_values "**Sample values:**" items]
    ∧ items `prefix_of` pd.dropna (key_values df c)
    ∧ length items = min 3 (length (pd.dropna (key_values df c)))
    ∧ (NaN ∉ items)
    ∧ (∀ v, v ∈ items → v ∈ key_values df c).
Proof.
  intros Hdf Hc Hne. exists (take 3 (pd.dropna (key_values df c))).
  assert (Hsub : ∀ v, v ∈ take 3 (pd.dropna (key_values df c)) →
                      v ≠ NaN ∧ v ∈ key_values df c).
  { intros v Hv%elem_of_take. destruct Hv as (i & Hv & _).
    apply list_elem_of_lookup_2 in Hv. by apply list_elem_of_filter in Hv. }
  split; [|split; [apply prefix_take|split; [apply length_take|split]]].
  - unfold testing_area_app.show_samples.
    rewrite (proj2 (truthy_Some c)) by done. simpl.
    by rewrite getitem_table.
  - intros Hin. by destruct (Hsub NaN Hin).
  - intros v Hv. by destruct (Hsub v Hv).
Qed.

Lemma samples_are_three_nonempty_values_witness :
  ∃ items,
    testing_area_app.show_samples attendees (Some "id")
    = mkSt (Ok ()) [st_write_values "**Sample values:**" items]
    ∧ items `prefix_of` [Int 1; Int 3; Int 3]
    ∧ length items = 3.
Proof.
  destruct (samples_are_three_nonempty_values attendees "id")
    as (items & Hshow & Hpre & Hlen & _);
    [unfold table; compute_done|compute_done|done|].
  exists items. split; [exact Hshow|]. split; [exact Hpre|exact Hlen].
Defined.

(** X16. A loaded sheet answers to the cleaned form of its headers and to
    nothing else: [validate_dataframe] accepts a name exactly when it is
    the trimmed, lower-case form of one of the sheet's headers, and then
    logs nothing. *)
Theorem headers_found_under_cleaned_names
    (uploaded_file : UploadedFile) (sheet : str) (raw : DataFrame)
    (file_name name : str) :
  uploaded_file sheet = inr raw →
  streamlit_app.load_excel_file uploaded_file sheet
  = mkSt (Ok (Some (pd.clean_columns raw))) []
  ∧ rows (pd.clean_columns raw) = rows raw
  ∧ length (columns (pd.clean_columns raw)) = length (columns raw)
  ∧ (out (streamlit_app.validate_dataframe (Some (pd.clean_columns raw))
            file_name name) = Ok true
     ↔ ∃ h, h ∈ columns raw ∧ name = str.lower (str.strip h))
  ∧ (out (streamlit_app.validate_dataframe (Some (pd.clean_columns raw))
            file_name name) = Ok true →
     log (streamlit_app.validate_dataframe (Some (pd.clean_columns raw))
            file_name name) = []).
Proof.
  intros Hf.
  split; [unfold streamlit_app.load_excel_file, read_excel; by rewrite Hf|].
  split; [done|]. split; [simpl; by rewrite !length_fmap|].
  assert (Hin : name ∈ columns (pd.clean_columns raw)
                ↔ ∃ h, h ∈ columns raw ∧ name = str.lower (str.strip h)).
  { simpl. rewrite <- list_fmap_compose, list_elem_of_fmap.
    split; intros (h & H1 & H2); exists h; done. }
  rewrite <- Hin. unfold streamlit_app.validate_dataframe, pd.contains.
  destruct (decide (name ∈ columns (pd.clean_columns raw))) as [H|H].
  - rewrite bool_decide_eq_true_2 by done. by simpl.
  - rewrite bool_decide_eq_false_2 by done. simpl. split; [split|]; done.
Qed.

Lemma headers_found_under_cleaned_names_witness :
  out (streamlit_app.validate_dataframe (Some (pd.clean_columns majors_sheet))
         "HRT Majors" "id") = Ok true.
Proof.
  apply (proj1 (proj2 (proj2 (proj2
           (headers_found_under_cleaned_names (workbook majors_sheet) "Sheet1"
              majors_sheet "HRT Majors" "id" eq_refl))))).
  exists " ID ". split; [compute_done|reflexivity].
Defined.

(** X17. The loader of [testing_area_app.py] swallows every exception of
    the read: it returns no frame and logs one error message, chosen by the
    class of the exception; for [FileNotFoundError] the message names the
    sheet asked for, for any other class but [ImportError] it carries the
    text of the exception, followed by three tips. *)
Theorem testing_loader_reports_once
    (uploaded_file : UploadedFile) (sheet : str) (e : exn) :
  uploaded_file sheet = inl e →
  out (testing_area_app.load_excel_file uploaded_file sheet) = Ok None
  ∧ (∃ body rest,
       log (testing_area_app.load_excel_file uploaded_file sheet)
       = st_error body :: rest ∧ quiet rest)
  ∧ (class_of e = FileNotFoundError →
     log (testing_area_app.load_excel_file uploaded_file sheet)
     = [st_error ("Sheet '" ++ sheet
                  ++ "' not found in the Excel file. Please check the sheet name.")])
  ∧ (class_of e ≠ FileNotFoundError → class_of e ≠ ImportError →
     ∃ rest,
       log (testing_area_app.load_excel_file uploaded_file sheet)
       = st_error ("Error loading file: " ++ str_of e) :: rest
       ∧ length rest = 4).
Proof.
  intros Hf. unfold testing_area_app.load_excel_file, read_excel. rewrite Hf.
  destruct e as [[] msg]; simpl;
    (split; [done|]); (split; [eexists _, _; split; [reflexivity|quiet_tac]|]);
    (split; [try done; intros [=]|]); intros H1 H2; try done; by eexists.
Qed.

Lemma testing_loader_reports_once_witness :
  testing_area_app.load_excel_file
    (λ _, inl (Exn FileNotFoundError "no such file")) "Majors"
  = mkSt (Ok None)
      [st_error "Sheet 'Majors' not found in the Excel file. Please check the sheet name."].
Proof.
  destruct (testing_loader_reports_once
              (λ _, inl (Exn FileNotFoundError "no such file")) "Majors"
              (Exn FileNotFoundError "no such file") eq_refl)
    as (Hout & _ & Hlog & _).
  specialize (Hlog eq_refl).
  destruct (testing_area_app.load_excel_file _ _) as [o l]. simpl in *.
  by rewrite Hout, Hlog.
Defined.

(** X18. The majors present are listed: in a pressed run of
    [testing_area_app.py] on tables whose numbers a float holds exactly,
    with at least one attendee among the majors, the summary has one line
    that lists them in sheet order, by the cells of the first attendee
    column whose label has "name" in it and, when no label has, by their
    key cells; a number of a column that has empty cells is printed as a
    float. *)
Theorem attending_majors_are_listed
    (type_name : Series → scalar → str) (w : testing_area_app.widgets)
    (A : DataFrame) (ka : str) (B : DataFrame) (kb : str) :
  table A → table B → ka ≠ [] → kb ≠ [] →
  testing_pressed w A ka B kb →
  Forall (Forall exact) (rows B) →
  rows (semi_join A ka B kb) ≠ [] →
  match testing_area_app.find_name_col (columns B) with
  | Some name_col =>
      name_col ∈ columns B
      ∧ str.contains "name" (str.lower name_col) = true
      ∧ st_write ("- **HRT Majors who attended BBQ:** "
                  ++ join ", "
                       (scalar_str (pd.dtype_of (key_values B name_col))
                          <$> key_values (semi_join A ka B kb) name_col))
        ∈ log (testing_area_app.main type_name w)
  | None =>
      (∀ c, c ∈ columns B → str.contains "name" (str.lower c) = false)
      ∧ st_write ("- **HRT Major IDs at BBQ:** "
                  ++ join ", "
                       (scalar_str (pd.dtype_of (key_values B kb))
                          <$> key_values (semi_join A ka B kb) kb))
        ∈ log (testing_area_app.main type_name w)
  end.
Proof.
  intros HA HB Hna Hnb Hw _ Hsome.
  pose proof Hw as (HlA & HlB & Hka & Hkb & Hbtn).
  assert (HkaA : ka ∈ columns A) by (by eapply hrt_choice_elem).
  assert (HkbB : kb ∈ columns B) by (by eapply bbq_choice_elem).
  destruct (testing_main_split type_name w A B HlA HlB HA HB) as (l0 & _ & Hlog).
  rewrite Hka, Hkb, Hbtn, testing_process_pressed in Hlog by done.
  rewrite Hlog. clear Hlog.
  destruct (non_hrt_expr A ka B kb HA HB HkaA HkbB)
    as (keys & majors & Hk & Hm & Hr & Hs).
  unfold testing_area_app.filter_and_report.
  rewrite Hk, Hm. st_step. rewrite Hr. st_step. rewrite Hs. st_step.
  assert (Hsemi : table (semi_join A ka B kb)) by exact HB.
  assert (Hpos : 0 < pd.len (semi_join A ka B kb)).
  { unfold pd.len. destruct (rows (semi_join A ka B kb)); [done|simpl; lia]. }
  rewrite (bool_decide_eq_true_2 _ Hpos).
  destruct (testing_area_app.find_name_col (columns B)) as [n|] eqn:Hn.
  - assert (Hin : n ∈ columns B) by (by apply find_name_col_elem).
    split; [done|]. split.
    + unfold testing_area_app.find_name_col in Hn.
      apply head_Some_elem_of, list_elem_of_filter in Hn. tauto.
    + rewrite (getitem_table (semi_join A ka B kb) n Hsemi Hin). st_step.
      rewrite (dtype_at_table B n HB Hin). in_log. tauto.
  - split.
    + unfold testing_area_app.find_name_col in Hn. apply head_None in Hn.
      intros c Hc. destruct (str.contains "name" (str.lower c)) eqn:Hcn; [|done].
      assert (c ∈ filter (λ col, str.contains "name" (str.lower col) = true)
                    (columns B)) as Hf by (by apply list_elem_of_filter).
      rewrite Hn in Hf. by apply elem_of_nil in Hf.
    + rewrite (getitem_table (semi_join A ka B kb) kb Hsemi HkbB). st_step.
      rewrite (dtype_at_table B kb HB HkbB). in_log. tauto.
Qed.

Lemma attending_majors_are_listed_witness :
  st_write "- **HRT Majors who attended BBQ:** X, W"
  ∈ log (testing_area_app.main numpy_type_name bbq_test_run).
Proof.
  pose proof (attending_majors_are_listed numpy_type_name bbq_test_run
                majors "id" attendees "id") as H.
  change (testing_area_app.find_name_col (columns attendees)) with (Some "name") in H.
  destruct H as (_ & _ & H);
    [unfold table; compute_done..|done|done|apply bbq_test_run_pressed
    |repeat constructor; vm_compute; discriminate|by vm_compute|].
  exact H.
Defined.

(** Keys of a column that has an empty cell are listed as floats. *)
Example keys_with_gaps_print_as_floats :
  st_write "- **HRT Major IDs at BBQ:** 1.0, nan"
  ∈ log (testing_area_app.main numpy_type_name
           (testing_area_app.Widgets "Sheet1" "Sheet1"
              (Some (workbook majors_sheet))
              (Some (workbook (mkDataFrame ["ID"] [[Int 1]; [Int 3]; [NaN]])))
              None None true)).
Proof.
  vm_compute. repeat first [apply list_elem_of_here | apply list_elem_of_further].
Qed.

(** X19. Validation fails exactly where the lookup would raise: for a
    frame and a name, [validate_dataframe] returns false if and only if
    [df[name]] raises [KeyError]; so past a successful validation the
    filter expression finds its key columns. *)
Theorem validation_guards_the_lookup (df : DataFrame) (file_name name : str) :
  (out (streamlit_app.validate_dataframe (Some df) file_name name) = Ok false
   ↔ pd.getitem df name = Raise (Exn KeyError name))
  ∧ (out (streamlit_app.validate_dataframe (Some df) file_name name) = Ok true
     ↔ ∀ e, pd.getitem df name ≠ Raise e).
Proof.
  unfold streamlit_app.validate_dataframe, pd.contains.
  destruct (decide (name ∈ columns df)) as [Hin|Hout].
  - rewrite bool_decide_eq_true_2 by done. simpl.
    pose proof (positions_present name 0 (columns df) Hin) as Hpos.
    unfold pd.getitem. destruct (pd.positions name 0 (columns df)) as [|i [|j l]];
      [done|..]; (split; split; [done|done|done|]); intros _; done.
  - rewrite bool_decide_eq_false_2 by done. simpl.
    rewrite (getitem_absent df name Hout).
    split; split; try done. intros H. by destruct (H (Exn KeyError name)).
Qed.

(** X20. In [testing_area_app.py] too nothing is computed before the button
    is pressed: with both frames loaded as tables (no cleaned label twice
    in a sheet), a run without the button ends normally with neither the
    result nor [hrt_at_bbq] bound, and its processing section shows at
    most the request to select columns. *)
Theorem testing_nothing_until_pressed
    (type_name : Series → scalar → str) (w : testing_area_app.widgets)
    (A B : DataFrame) :
  loads (testing_area_app.hrt_file w) (testing_area_app.hrt_sheet w) A →
  loads (testing_area_app.bbq_file w) (testing_area_app.bbq_sheet w) B →
  table A → table B →
  testing_area_app.filter_button w = false →
  (∃ L, out (testing_area_app.main type_name w) = Ok L
        ∧ testing_area_app.non_hrt_attendees L = None
        ∧ testing_area_app.hrt_at_bbq L = None)
  ∧ testing_result type_name w = None
  ∧ testing_complement type_name w = None
  ∧ (∃ l0 lp, log (testing_area_app.main type_name w) = l0 ++ lp
              ∧ lp = log (testing_area_app.process A B
                            (testing_area_app.hrt_choice A
                               (testing_area_app.hrt_column_select w))
                            (testing_area_app.bbq_choice B
                               (testing_area_app.hrt_choice A
                                  (testing_area_app.hrt_column_select w))
                               (testing_area_app.bbq_column_select w))
                            false)
              ∧ (lp = [] ∨ lp = [st_markdown "Column Selection Required"])).
Proof.
  intros HlA HlB HA HB Hbtn.
  destruct (testing_main_split type_name w A B HlA HlB HA HB) as (l0 & Hout & Hlog).
  set (ka := testing_area_app.hrt_choice A (testing_area_app.hrt_column_select w))
    in *.
  set (kb := testing_area_app.bbq_choice B ka (testing_area_app.bbq_column_select w))
    in *.
  assert (HkaA : ∀ a, ka = Some a → a ∈ columns A)
    by (intros a; apply hrt_choice_elem).
  assert (HkbB : ∀ b, kb = Some b → b ∈ columns B)
    by (intros b; apply bbq_choice_elem).
  assert (Hp : ∃ lp, testing_area_app.process A B ka kb false
                     = mkSt (Ok (None, None)) lp
                     ∧ (lp = [] ∨ lp = [st_markdown "Column Selection Required"])).
  { unfold testing_area_app.process.
    destruct (testing_area_app.truthy ka && testing_area_app.truthy kb) eqn:Ht.
    - apply andb_true_iff in Ht as [Hta Htb].
      destruct ka as [a|]; [|done]. destruct kb as [b|]; [|done].
      unfold pd.contains. rewrite !bool_decide_eq_true_2 by auto.
      exists []. split; [done|by left].
    - eexists. split; [reflexivity|by right]. }
  destruct Hp as (lp & Hp & Hlp).
  rewrite Hbtn, Hp in Hout, Hlog. simpl in Hout, Hlog.
  unfold testing_result, testing_complement. rewrite Hout. simpl.
  split; [by eexists|]. split; [done|]. split; [done|].
  exists l0, lp. by rewrite Hp.
Qed.

Lemma testing_nothing_until_pressed_witness :
  testing_result numpy_type_name
    (testing_area_app.Widgets "Sheet1" "Sheet1"
       (Some (workbook majors_sheet)) (Some (workbook attendees_sheet))
       None None false) = None.
Proof.
  apply (testing_nothing_until_pressed numpy_type_name
           (testing_area_app.Widgets "Sheet1" "Sheet1"
              (Some (workbook majors_sheet)) (Some (workbook attendees_sheet))
              None None false) majors attendees);
    first [apply workbook_loads | unfold table; compute_done | reflexivity].
Defined.

Lemma testing_upload_cases file sheet what :
  (∃ df, loads file sheet df
         ∧ testing_area_app.upload file sheet what
           = mkSt (Ok (Some df))
               [st_success ("Loaded " ++ str.format (pd.len df) ++ " " ++ what);
                st_dataframe (head_rows 5 df);
                st_write_list "**Columns:**" (columns df)])
  ∨ ((∀ df, ¬ loads file sheet df)
     ∧ ∃ l, testing_area_app.upload file sheet what = mkSt (Ok None) l
            ∧ ∀ c, c ∈ l →
                   match c with
                   | st_error _ | st_info _ | st_write _ => True
                   | _ => False
                   end).
Proof.
  destruct file as [f|].
  - destruct (f sheet) as [e|raw] eqn:Hf.
    + right. split.
      * intros df (f' & raw & [= <-] & Hf' & _). congruence.
      * unfold testing_area_app.upload, testing_area_app.load_excel_file, read_excel.
        rewrite Hf. destruct e as [[] msg]; simpl;
          (eexists; split; [reflexivity|]); intros c; simpl; in_log;
          intuition (by subst).
    + left. exists (pd.clean_columns raw).
      assert (loads (Some f) sheet (pd.clean_columns raw)) by (by exists f, raw).
      split; [done|]. by apply testing_upload_loads.
  - right. split; [by intros df (f & raw & [=] & _)|].
    exists []. split; [done|]. intros c Hc. by apply elem_of_nil in Hc.
Qed.

(** X21. Without both frames [testing_area_app.py] shows its placeholder
    and goes no further: when a file is missing or cannot be read the
    script ends normally with no column selected and no result, and of the
    boxes that depend on the run (the log leaves out the fixed headings and
    help boxes) it draws the "Column Selection" placeholder only. *)
Theorem testing_stops_without_both_frames
    (type_name : Series → scalar → str) (w : testing_area_app.widgets) :
  (∀ df, ¬ loads (testing_area_app.hrt_file w) (testing_area_app.hrt_sheet w) df)
  ∨ (∀ df, ¬ loads (testing_area_app.bbq_file w) (testing_area_app.bbq_sheet w) df) →
  (∃ hrt_df bbq_df,
     out (testing_area_app.main type_name w)
     = Ok (testing_area_app.Locals hrt_df bbq_df None None None None))
  ∧ testing_result type_name w = None
  ∧ (∀ body, st_markdown body ∈ log (testing_area_app.main type_name w)
             ↔ body = "Column Selection")
  ∧ (∀ body, st_warning body ∉ log (testing_area_app.main type_name w)).
Proof.
  intros Hmiss.
  assert (Hmain : ∃ hrt_df bbq_df l1 l2,
    testing_area_app.main type_name w
    = mkSt (Ok (testing_area_app.Locals hrt_df bbq_df None None None None))
        (l1 ++ l2 ++ [st_markdown "Column Selection"])
    ∧ (∀ c, c ∈ l1 ++ l2 →
            match c with st_markdown _ | st_warning _ => False | _ => True end)).
  { unfold testing_area_app.main.
    destruct (testing_upload_cases (testing_area_app.hrt_file w)
                (testing_area_app.hrt_sheet w) "HRT majors")
      as [(A & HlA & ->)|(HnA & lA & -> & HA)];
      destruct (testing_upload_cases (testing_area_app.bbq_file w)
                  (testing_area_app.bbq_sheet w) "BBQ attendees")
        as [(B & HlB & ->)|(HnB & lB & -> & HB)];
      [destruct Hmiss as [H|H]; [by destruct (H A)|by destruct (H B)]|..];
      st_step; eexists _, _, _, _; (split; [reflexivity|]);
      intros c [Hc|Hc]%elem_of_app;
      try (specialize (HA c Hc)); try (specialize (HB c Hc));
      try (by destruct c);
      revert Hc; in_log; intuition (by subst). }
  destruct Hmain as (h & b & l1 & l2 & Hmain & Hcalm).
  unfold testing_result. rewrite Hmain. simpl.
  split; [by eexists _, _|]. split; [done|]. split.
  - intros body. rewrite app_assoc, elem_of_app, list_elem_of_singleton. split.
    + intros [Hin|[= ->]]; [|done]. by apply Hcalm in Hin.
    + intros ->. by right.
  - intros body. rewrite app_assoc, elem_of_app, list_elem_of_singleton.
    intros [Hin|[=]]. by apply Hcalm in Hin.
Qed.

Lemma testing_stops_without_both_frames_witness :
  testing_result numpy_type_name
    (testing_area_app.Widgets "Sheet1" "Sheet1"
       None (Some (workbook attendees_sheet)) None None true) = None.
Proof.
  apply (testing_stops_without_both_frames numpy_type_name
           (testing_area_app.Widgets "Sheet1" "Sheet1"
              None (Some (workbook attendees_sheet)) None None true)).
  left. by intros df (f & raw & [=] & _).
Defined.
